(** * Keyword sentiment scorer of cicd-with-ml: embedding and properties

    The development embeds, function by function,
    - [api/app.py]: [predict_sentiment] and the [/predict] handler,
    - [src/serving-pipeline/model.py]: [SentimentModel.predict] and
      [SentimentModel._analyze_sentiment],
    - [src/training-pipeline/train_model.py]: [generate_sample_data],
      [extract_features], [train_model], [validate_model] and
      [_predict_single].

    Conventions.
    - A Python [str] is a [string] whose characters are read as code points
      below 256.  [Py.lower], [Py.isspace], [Py.strip], [Py.split] and
      [Py.contains] (the operator [in] on two strings) are the built-ins the
      code calls, written out on that range.
    - A Python [int] is a [Z].
    - A Python [float] is the rational its literal denotes.  The scorers
      only add [0.6] to a multiple of [0.1], cap at [0.9] and round to two
      decimals, so every confidence is one of 0.0, 0.5, 0.7, 0.8, 0.9;
      statements about confidences use [Qeq].
    - A [dict] with fixed keys is a record; a [dict] used as a map is a
      [gmap]; a [set] is a [gset].
    - Python does not enforce annotations: where a call can receive an
      object of another type than its parameter declares, the object is a
      [Serving.value] and a missing attribute raises [AttributeError]. *)

From Stdlib Require Import ZArith QArith Qround Qminmax Lia.
From Stdlib Require Import Ascii String.
From stdpp Require Import gmap strings list.

Local Open Scope Z_scope.

#[local] Set Warnings "-register-all".

(** ** Python built-ins used by the code *)

Module Py.

(** [str.isspace] on one code point below 256: TAB..CR, FS..US, space,
    NEL and NBSP. *)
Definition isspace (c : ascii) : bool :=
  let n := N_of_ascii c in
  ((9 <=? n) && (n <=? 13) || (28 <=? n) && (n <=? 32)
   || (n =? 133) || (n =? 160))%N.

(** [str.lower] on one code point below 256: A..Z and the Latin-1 capitals
    (all of 192..222 but the multiplication sign 215) move up by 32. *)
Definition lower_char (c : ascii) : ascii :=
  let n := N_of_ascii c in
  if ((65 <=? n) && (n <=? 90)
      || (192 <=? n) && (n <=? 222) && negb (n =? 215))%N
  then ascii_of_N (n + 32) else c.

Fixpoint lower (s : string) : string :=
  match s with
  | EmptyString => EmptyString
  | String c s' => String (lower_char c) (lower s')
  end.

Fixpoint lstrip (s : string) : string :=
  match s with
  | EmptyString => EmptyString
  | String c s' => if isspace c then lstrip s' else s
  end.

Definition rstrip (s : string) : string :=
  String.rev (lstrip (String.rev s)).

(** [s.strip()] *)
Definition strip (s : string) : string := rstrip (lstrip s).

(** A string of whitespace only; the empty string is one. *)
Fixpoint blank (s : string) : bool :=
  match s with
  | EmptyString => true
  | String c s' => isspace c && blank s'
  end.

(** Truth value of a [str]: the empty string is false. *)
Definition truthy (s : string) : bool :=
  match s with EmptyString => false | String _ _ => true end.

(** [w in t] for two strings: [w] starts at some position of [t]. *)
Fixpoint contains (w t : string) : bool :=
  String.prefix w t
  || match t with
     | EmptyString => false
     | String _ t' => contains w t'
     end.

(** The word collected so far, most recent character first. *)
Definition flush (acc : list ascii) : list string :=
  match acc with
  | [] => []
  | _ :: _ => [string_of_list_ascii (rev acc)]
  end.

Fixpoint split_from (acc : list ascii) (s : string) : list string :=
  match s with
  | EmptyString => flush acc
  | String c s' =>
      if isspace c then flush acc ++ split_from [] s'
      else split_from (c :: acc) s'
  end.

(** [s.split()] without arguments: maximal runs of non-whitespace. *)
Definition split (s : string) : list string := split_from [] s.

(** [round(x, 2)]: to the nearest hundredth, ties to the even one. *)
Definition round_half_even (x : Q) : Z :=
  let f := Qfloor x in
  match Qcompare (x - inject_Z f) (1 # 2) with
  | Lt => f
  | Gt => f + 1
  | Eq => if Z.even f then f else f + 1
  end.

Definition round2 (x : Q) : Q := inject_Z (round_half_even (x * 100)) / 100.

End Py.

(** ** The scorer shared by the three call sites *)

(** The two word lists a scorer runs on: the literals of [predict_sentiment],
    the attributes [self.positive_words] / [self.negative_words] of
    [SentimentModel], the entries of [self.model_data] of the trainer. *)
Record WordLexicon := {
  positive : list string;
  negative : list string
}.

(** [sum(1 for word in words if word in text_lower)] *)
Fixpoint count_hits (words : list string) (text_lower : string) : Z :=
  match words with
  | [] => 0
  | word :: rest =>
      (if Py.contains word text_lower then 1 else 0) + count_hits rest text_lower
  end.

Definition default_lexicon : WordLexicon := {|
  positive :=
    ["good"; "great"; "excellent"; "amazing"; "wonderful"; "fantastic";
     "awesome"; "love"; "like"; "happy"; "joy"];
  negative :=
    ["bad"; "terrible"; "awful"; "horrible"; "hate"; "dislike"; "sad";
     "angry"; "disappointed"; "worst"]
|}.

(** ** [api/app.py] *)

Module Api.

(** The dictionary [predict_sentiment] returns. *)
Record Prediction := {
  sentiment : string;
  confidence : Q
}.

(** The body of [predict_sentiment], its two literal lists being the
    arguments [positive_words] and [negative_words]. *)
Definition predict_sentiment_with
    (positive_words negative_words : list string) (text : string) : Prediction :=
  let text_lower := Py.lower text in
  let positive_count := count_hits positive_words text_lower in
  let negative_count := count_hits negative_words text_lower in
  let '(sentiment, confidence) :=
    if positive_count >? negative_count then
      ("positive", Qmin 0.9 (0.6 + inject_Z (positive_count - negative_count) * 0.1))
    else if negative_count >? positive_count then
      ("negative", Qmin 0.9 (0.6 + inject_Z (negative_count - positive_count) * 0.1))
    else
      ("neutral", 0.5%Q) in
  {| sentiment := sentiment; confidence := Py.round2 confidence |}.

Definition predict_sentiment (text : string) : Prediction :=
  predict_sentiment_with
    (positive default_lexicon) (negative default_lexicon) text.

(** The pydantic models of the endpoint. *)
Record TextInput := { text : string }.

Record PredictionResponse := {
  response_text : string;
  response_sentiment : string;
  response_confidence : Q
}.

(** [fastapi.HTTPException]; it derives from [Exception]. *)
Inductive exn :=
| HTTPException (status_code : Z) (detail : string).

Definition is_Exception (e : exn) : bool :=
  match e with HTTPException _ _ => true end.

(** What the handler hands to [logger]: the level and the values the
    message is formatted from. *)
Inductive log_entry :=
| InfoProcessing (text_prefix : string)
| InfoPrediction (sentiment : string) (confidence : Q)
| ErrorProcessing (e : exn).

(** A handler runs on the log written so far and ends with a value or a
    raised exception. *)
Definition M (A : Type) : Type := list log_entry -> (A + exn) * list log_entry.

Definition ret {A} (a : A) : M A := fun log => (inl a, log).

Definition bind {A B} (m : M A) (k : A -> M B) : M B :=
  fun log =>
    match m log with
    | (inl a, log') => k a log'
    | (inr e, log') => (inr e, log')
    end.

Definition raise {A} (e : exn) : M A := fun log => (inr e, log).

Definition logger (entry : log_entry) : M unit :=
  fun log => (inl tt, log ++ [entry]).

(** [try: body  except Exception as e: handler e] *)
Definition try_except_Exception {A} (body : M A) (handler : exn -> M A) : M A :=
  fun log =>
    match body log with
    | (inl a, log') => (inl a, log')
    | (inr e, log') => if is_Exception e then handler e log' else (inr e, log')
    end.

Notation "m ;;; k" := (bind m (fun _ => k))
  (at level 100, right associativity).

(** [s[:n]] *)
Fixpoint slice_to (n : nat) (s : string) : string :=
  match n, s with
  | S n', String c s' => String c (slice_to n' s')
  | _, _ => EmptyString
  end.

(** The [/predict] handler. *)
Definition predict (input_data : TextInput) : M PredictionResponse :=
  try_except_Exception
    ((if negb (Py.truthy (Py.strip (text input_data)))
      then raise (HTTPException 400 "Text cannot be empty")
      else ret tt) ;;;
     logger (InfoProcessing (slice_to 50 (text input_data))) ;;;
     let prediction := predict_sentiment (text input_data) in
     let response :=
       {| response_text := text input_data;
          response_sentiment := sentiment prediction;
          response_confidence := confidence prediction |} in
     logger (InfoPrediction (sentiment prediction) (confidence prediction)) ;;;
     ret response)
    (fun e =>
       logger (ErrorProcessing e) ;;;
       raise (HTTPException 500 "Internal server error")).

End Api.

(** ** [src/serving-pipeline/model.py] *)

Module Serving.

(** The attributes of a [SentimentModel] object. *)
Record SentimentModel := {
  name : string;
  ready : bool;
  positive_words : list string;
  negative_words : list string
}.

(** [__init__]: not ready, the two literal lists. *)
Definition init (name : string) : SentimentModel := {|
  name := name;
  ready := false;
  positive_words := positive default_lexicon;
  negative_words := negative default_lexicon
|}.

(** [load]: sets the ready flag. *)
Definition load (self : SentimentModel) : SentimentModel := {|
  name := name self;
  ready := true;
  positive_words := positive_words self;
  negative_words := negative_words self
|}.

(** The dictionary [_analyze_sentiment] returns; the key ["error"] is
    present on one path only. *)
(** A decoded JSON value: what an entry of a dictionary instance may
    hold, and what ends up in the parameter [text], whose annotation [str]
    Python does not enforce. *)
Inductive value :=
| VNone
| VBool (b : bool)
| VInt (n : Z)
| VFloat (x : Q)
| VStr (s : string)
| VList (items : list value)
| VDict (entries : list (string * value)).

(** Truth value of an object: [None], [False], zero and the empty string,
    list and dictionary are false. *)
Definition truthy (v : value) : bool :=
  match v with
  | VNone => false
  | VBool b => b
  | VInt n => negb (n =? 0)
  | VFloat x => negb (Qeq_bool x 0)
  | VStr s => Py.truthy s
  | VList items => match items with [] => false | _ :: _ => true end
  | VDict entries => match entries with [] => false | _ :: _ => true end
  end.

(** [AttributeError]: the object has no attribute of that name. *)
Inductive exn :=
| AttributeError (object : value) (attribute : string).

Record Result := {
  text : value;
  sentiment : string;
  confidence : Q;
  error : option string
}.

(** [_analyze_sentiment] on a [str], the type its parameter declares. *)
Definition _analyze_sentiment (self : SentimentModel) (text : string) : Result :=
  if negb (Py.truthy text) || negb (Py.truthy (Py.strip text)) then
    {| text := VStr text; sentiment := "neutral"; confidence := 0.0;
       error := Some "Empty text provided" |}
  else
    let text_lower := Py.lower text in
    let positive_count := count_hits (positive_words self) text_lower in
    let negative_count := count_hits (negative_words self) text_lower in
    let '(sentiment, confidence) :=
      if positive_count >? negative_count then
        ("positive", Qmin 0.9 (0.6 + inject_Z (positive_count - negative_count) * 0.1))
      else if negative_count >? positive_count then
        ("negative", Qmin 0.9 (0.6 + inject_Z (negative_count - positive_count) * 0.1))
      else
        ("neutral", 0.5%Q) in
    {| text := VStr text; sentiment := sentiment; confidence := Py.round2 confidence;
       error := None |}.

(** [_analyze_sentiment] on any object, as [predict] calls it.  In
    [if not text or not text.strip()] an object that is false is answered
    at once with the empty-text record around it; an object that is true
    is asked for [strip], which only a [str] has: any other raises
    [AttributeError]. *)
Definition _analyze_sentiment_any (self : SentimentModel) (text : value)
    : Result + exn :=
  match text with
  | VStr s => inl (_analyze_sentiment self s)
  | _ =>
      if negb (truthy text) then
        inl {| text := text; sentiment := "neutral"; confidence := 0.0;
               error := Some "Empty text provided" |}
      else inr (AttributeError text "strip")
  end.

(** One element of ["instances"], by the case [predict] tells apart: a
    [str], a [dict] with its entries, or any other object, carried with
    the string [str(instance)] gives for it. *)
Inductive instance :=
| InstStr (s : string)
| InstDict (d : gmap string value)
| InstOther (str_of : string).

(** The [if isinstance ... elif ... else] of the loop body. *)
Definition instance_text (inst : instance) : value :=
  match inst with
  | InstStr s => VStr s
  | InstDict d => default (default (VStr "") (d !! "data")) (d !! "text")
  | InstOther str_of => VStr str_of
  end.

Record Response := { predictions : list Result }.

(** [predict]; the payload is the request's dictionary, of which only
    the key ["instances"] is read.  An exception raised for one instance
    ends the loop and the call: the predictions made so far are lost. *)
Definition predict (self : SentimentModel) (payload : gmap string (list instance))
    : Response + exn :=
  let instances := default [] (payload !! "instances") in
  match instances with
  | [] => inl {| predictions := [] |}
  | _ :: _ =>
      match
        fold_left
          (fun (state : list Result + exn) inst =>
             match state with
             | inr e => inr e
             | inl predictions =>
                 match _analyze_sentiment_any self (instance_text inst) with
                 | inl result => inl (predictions ++ [result])
                 | inr e => inr e
                 end
             end)
          instances (inl [])
      with
      | inl predictions => inl {| predictions := predictions |}
      | inr e => inr e
      end
  end.

End Serving.

(** ** [src/training-pipeline/train_model.py] *)

Module Training.

(** The dictionary [extract_features] returns.  Its values are
    [list(a_set)], whose order Python leaves open: they are kept as sets. *)
Record Features := {
  positive_words : gset string;
  negative_words : gset string;
  common_words : gset string
}.

(** One round of the [for text, label in data] loop on the pair of sets
    [(positive_words, negative_words)]. *)
Definition extract_step (sets : gset string * gset string)
    (example : string * string) : gset string * gset string :=
  let '(positive_words, negative_words) := sets in
  let '(text, label) := example in
  let words := Py.split (Py.lower text) in
  if String.eqb label "positive" then
    (positive_words ∪ list_to_set words, negative_words)
  else if String.eqb label "negative" then
    (positive_words, negative_words ∪ list_to_set words)
  else sets.

Definition extract_features (data : list (string * string)) : Features :=
  let '(positive_words, negative_words) := fold_left extract_step data (∅, ∅) in
  let common_words := positive_words ∩ negative_words in
  {| positive_words := positive_words ∖ common_words;
     negative_words := negative_words ∖ common_words;
     common_words := common_words |}.

(** The entries of [self.model_data] that [_predict_single] reads. *)
Record ModelData := {
  model_positive_words : list string;
  model_negative_words : list string
}.

(** [self.model_data] is [None] before training. *)
Record SimpleModelTrainer := { model_data : option ModelData }.

Definition _predict_single (self : SimpleModelTrainer) (text : string) : string :=
  match model_data self with
  | None => "neutral"
  | Some model_data =>
      let text_lower := Py.lower text in
      let positive_count := count_hits (model_positive_words model_data) text_lower in
      let negative_count := count_hits (model_negative_words model_data) text_lower in
      if positive_count >? negative_count then "positive"
      else if negative_count >? positive_count then "negative"
      else "neutral"
  end.

(** [generate_sample_data]: the sixteen literal pairs, then the six
    additional positive and the six additional negative texts. *)
Definition generate_sample_data : list (string * string) :=
  let sample_data :=
    [("I love this product!", "positive");
     ("This is amazing work", "positive");
     ("Great job on the project", "positive");
     ("Excellent quality and service", "positive");
     ("I'm very happy with this", "positive");
     ("Wonderful experience overall", "positive");
     ("This is terrible", "negative");
     ("I hate this so much", "negative");
     ("Worst experience ever", "negative");
     ("Very disappointed with quality", "negative");
     ("This is awful and bad", "negative");
     ("I don't like this at all", "negative");
     ("It's okay I guess", "neutral");
     ("This is average", "neutral");
     ("Nothing special about it", "neutral");
     ("Could be better or worse", "neutral")] in
  let additional_positive :=
    ["Fantastic results!"; "Outstanding performance"; "Incredible work";
     "Absolutely brilliant"; "Superb quality"; "Marvelous experience"] in
  let additional_negative :=
    ["Complete disaster"; "Total failure"; "Absolutely horrible";
     "Completely useless"; "Worst possible outcome"; "Extremely poor"] in
  sample_data
    ++ map (fun text => (text, "positive")) additional_positive
    ++ map (fun text => (text, "negative")) additional_negative.

(** [len([x for x in training_data if x[1] == label])] *)
Definition count_label (label : string) (training_data : list (string * string)) : Z :=
  Z.of_nat (length (List.filter (fun x => String.eqb (snd x) label) training_data)).

(** The entries of [self.model_data] besides the two word lists. *)
Record ModelInfo := {
  training_size : Z;
  trained_at : string;
  version : string
}.

(** [self.training_stats] once [train_model] has filled it. *)
Record TrainingStats := {
  total_samples : Z;
  positive_samples : Z;
  negative_samples : Z;
  neutral_samples : Z;
  feature_count : Z;
  training_time : string
}.

(** What the trainer hands to [logger]. *)
Inductive log_entry :=
| InfoStarting
| InfoGenerated (samples : Z)
| InfoExtracted (positive_count negative_count : Z)
| InfoCompleted
| InfoValidated (accuracy : Q).

(** The trainer after [train_model]: the object with the two word lists
    in [self.model_data], the other entries of [self.model_data], and
    [self.training_stats]. *)
Record Trained := {
  trainer : SimpleModelTrainer;
  model_info : ModelInfo;
  training_stats : TrainingStats
}.

(** The body of [train_model] from the line after
    [training_data = self.generate_sample_data()]; the two readings of
    [datetime.now().isoformat()] are the arguments [trained_at] and
    [training_time].  [list(a_set)] hands out the elements of the set in
    some order: [elements]. *)
Definition train_model_from (training_data : list (string * string))
    (trained_at training_time : string) : Trained * list log_entry :=
  let features := extract_features training_data in
  let positive_list := elements (positive_words features) in
  let negative_list := elements (negative_words features) in
  ({| trainer :=
        {| model_data :=
             Some {| model_positive_words := positive_list;
                     model_negative_words := negative_list |} |};
      model_info :=
        {| training_size := Z.of_nat (length training_data);
           trained_at := trained_at;
           version := "1.0.0" |};
      training_stats :=
        {| total_samples := Z.of_nat (length training_data);
           positive_samples := count_label "positive" training_data;
           negative_samples := count_label "negative" training_data;
           neutral_samples := count_label "neutral" training_data;
           feature_count :=
             Z.of_nat (length positive_list) + Z.of_nat (length negative_list);
           training_time := training_time |} |},
   [InfoStarting;
    InfoGenerated (Z.of_nat (length training_data));
    InfoExtracted (Z.of_nat (length positive_list)) (Z.of_nat (length negative_list));
    InfoCompleted]).

Definition train_model (trained_at training_time : string) : Trained * list log_entry :=
  train_model_from generate_sample_data trained_at training_time.

(** The literal [test_cases] of [validate_model]. *)
Definition test_cases : list (string * string) :=
  [("This is great!", "positive");
   ("I love it", "positive");
   ("This is terrible", "negative");
   ("I hate this", "negative")].

(** The dictionary [validate_model] returns. *)
Record ValidationResults := {
  accuracy : Q;
  correct_predictions : Z;
  total_test_cases : Z;
  validation_time : string
}.

Inductive exn :=
| ValueError (message : string).

(** The [for text, expected in test_cases] loop on the counter [correct]. *)
Definition count_correct (self : SimpleModelTrainer)
    (cases : list (string * string)) : Z :=
  fold_left
    (fun correct '(text, expected) =>
       if String.eqb (_predict_single self text) expected then correct + 1
       else correct)
    cases 0.

(** [validate_model]; [validation_time] is the reading of the clock. *)
Definition validate_model (self : SimpleModelTrainer) (validation_time : string)
    : (ValidationResults + exn) * list log_entry :=
  match model_data self with
  | None => (inr (ValueError "Model not trained yet!"), [])
  | Some _ =>
      let correct := count_correct self test_cases in
      let accuracy := (inject_Z correct / inject_Z (Z.of_nat (length test_cases)))%Q in
      (inl {| accuracy := accuracy;
              correct_predictions := correct;
              total_test_cases := Z.of_nat (length test_cases);
              validation_time := validation_time |},
       [InfoValidated accuracy])
  end.

End Training.


(** ** The specification's vocabulary *)

(** The number of entries of [words] that occur as substrings of
    [text_lower], counted entry by entry. *)
Definition entries_found (words : list string) (text_lower : string) : Z :=
  Z.of_nat (length (List.filter (fun word => Py.contains word text_lower) words)).

(** The branch the scorers take on two counts, as one function of the
    counts: the sentiment, and the confidence before rounding. *)
Definition raw_confidence (diff : Z) : Q :=
  Qmin 0.9 (0.6 + inject_Z diff * 0.1).

Definition decide_sentiment (positive_count negative_count : Z) : string * Q :=
  if positive_count >? negative_count then
    ("positive", raw_confidence (positive_count - negative_count))
  else if negative_count >? positive_count then
    ("negative", raw_confidence (negative_count - positive_count))
  else
    ("neutral", 0.5%Q).

(** The specification's confidence for a count difference, before rounding:
    min(0.9, 0.6 + 0.1 * diff). *)
Definition spec_confidence (diff : Z) : Q :=
  Qmin 0.9 (0.6 + 0.1 * inject_Z diff).

(** The set of lowercased whitespace-split words of the examples of [data]
    that carry [label]. *)
Fixpoint labelled_words (label : string) (data : list (string * string))
    : gset string :=
  match data with
  | [] => ∅
  | (text, l) :: rest =>
      (if String.eqb l label then list_to_set (Py.split (Py.lower text)) else ∅)
      ∪ labelled_words label rest
  end.

(** A model whose positive and negative word lists changed places. *)
Definition swap_model (self : Serving.SentimentModel) : Serving.SentimentModel := {|
  Serving.name := Serving.name self;
  Serving.ready := Serving.ready self;
  Serving.positive_words := Serving.negative_words self;
  Serving.negative_words := Serving.positive_words self
|}.

Definition swap_model_data (m : Training.ModelData) : Training.ModelData := {|
  Training.model_positive_words := Training.model_negative_words m;
  Training.model_negative_words := Training.model_positive_words m
|}.

Definition swap_trainer (self : Training.SimpleModelTrainer)
    : Training.SimpleModelTrainer :=
  {| Training.model_data := swap_model_data <$> Training.model_data self |}.

(** A word list entry that is not empty and holds no whitespace. *)
Definition visible (w : string) : Prop :=
  w <> "" /\ Forall (fun c => Py.isspace c = false) (list_ascii_of_string w).

(** What an instance is scored on, in the words of the specification: a
    raw string is its own text; a record is scored on its "text" field, on
    its "data" field when it has no "text", and on the empty string when
    it has neither; any other object is scored on its [str()]. *)
Inductive scored_on : Serving.instance -> Serving.value -> Prop :=
| scored_on_string (s : string) :
    scored_on (Serving.InstStr s) (Serving.VStr s)
| scored_on_text (d : gmap string Serving.value) (v : Serving.value) :
    d !! "text" = Some v -> scored_on (Serving.InstDict d) v
| scored_on_data (d : gmap string Serving.value) (v : Serving.value) :
    d !! "text" = None -> d !! "data" = Some v -> scored_on (Serving.InstDict d) v
| scored_on_nothing (d : gmap string Serving.value) :
    d !! "text" = None -> d !! "data" = None ->
    scored_on (Serving.InstDict d) (Serving.VStr "")
| scored_on_other (str_of : string) :
    scored_on (Serving.InstOther str_of) (Serving.VStr str_of).

(** A value that bears text: a string, or an object that is false (which
    the scorer takes for an empty text). *)
Definition bears_text (v : Serving.value) : Prop :=
  (exists s, v = Serving.VStr s) \/ Serving.truthy v = false.

(** A blank value: an empty or whitespace-only string, or an object that
    is false. *)
Definition blank_value (v : Serving.value) : bool :=
  match v with
  | Serving.VStr s => Py.blank s
  | _ => negb (Serving.truthy v)
  end.

(** The record the serving scorer returns for a text it finds empty. *)
Definition empty_text_result (text : Serving.value) : Serving.Result := {|
  Serving.text := text;
  Serving.sentiment := "neutral";
  Serving.confidence := 0.0;
  Serving.error := Some "Empty text provided"
|}.

(** The record for a text scored normally: the text, and the sentiment
    and confidence the API scorer computes on the model's word lists. *)
Definition scored_result (self : Serving.SentimentModel) (text : string)
    : Serving.Result :=
  let p := Api.predict_sentiment_with
             (Serving.positive_words self) (Serving.negative_words self) text in
  {| Serving.text := Serving.VStr text;
     Serving.sentiment := Api.sentiment p;
     Serving.confidence := Api.confidence p;
     Serving.error := None |}.

(** The batch scored front to back: the results, or the first exception
    raised. *)
Fixpoint score_all (self : Serving.SentimentModel) (instances : list Serving.instance)
    : list Serving.Result + Serving.exn :=
  match instances with
  | [] => inl []
  | inst :: rest =>
      match Serving._analyze_sentiment_any self (Serving.instance_text inst) with
      | inr e => inr e
      | inl result =>
          match score_all self rest with
          | inr e => inr e
          | inl results => inl (result :: results)
          end
      end
  end.

(** The prediction the specification gives a text-bearing value: the
    empty-text record when it is blank, its score otherwise. *)
Definition result_for (self : Serving.SentimentModel) (v : Serving.value)
    : Serving.Result :=
  match v with
  | Serving.VStr s =>
      if Py.blank s then empty_text_result v else scored_result self s
  | _ => empty_text_result v
  end.

(** * Properties *)

(** ** The built-ins *)

Section PyFacts.

Lemma lstrip_empty_iff (s : string) : Py.lstrip s = "" <-> Py.blank s = true.
Proof.
  induction s as [|c s IH]; simpl; [tauto|].
  destruct (Py.isspace c); simpl; [exact IH|].
  split; discriminate.
Qed.

Lemma lstrip_head (s : string) (c : ascii) (s' : string) :
  Py.lstrip s = String c s' -> Py.isspace c = false.
Proof.
  induction s as [|d s IH]; simpl; [discriminate|].
  destruct (Py.isspace d) eqn:Hd; [exact IH|].
  intros [= -> _]. exact Hd.
Qed.

Lemma blank_rev_app (s1 s2 : string) :
  Py.blank (String.rev_app s1 s2) = Py.blank s1 && Py.blank s2.
Proof.
  revert s2. induction s1 as [|c s1 IH]; intros s2; simpl; [reflexivity|].
  rewrite IH. simpl. destruct (Py.isspace c), (Py.blank s1); reflexivity.
Qed.

Lemma rev_app_empty (s1 s2 : string) :
  String.rev_app s1 s2 = "" -> s1 = "" /\ s2 = "".
Proof.
  revert s2. induction s1 as [|c s1 IH]; intros s2; simpl; [tauto|].
  intros H. apply IH in H as [_ H]. discriminate.
Qed.

Lemma strip_empty_iff (s : string) : Py.strip s = "" <-> Py.blank s = true.
Proof.
  unfold Py.strip, Py.rstrip, String.rev. split.
  - intros H. apply rev_app_empty in H as [H _].
    apply lstrip_empty_iff in H. rewrite blank_rev_app in H.
    apply andb_true_iff in H as [H _].
    destruct (Py.lstrip s) as [|c s'] eqn:Hl.
    + by apply lstrip_empty_iff.
    + apply lstrip_head in Hl. simpl in H. rewrite Hl in H. discriminate.
  - intros H. apply lstrip_empty_iff in H. rewrite H. reflexivity.
Qed.

(** The test [not text or not text.strip()] of the serving scorer, and
    the test [not text.strip()] of the endpoint, both mean [Py.blank]. *)
Lemma truthy_false_iff (s : string) : Py.truthy s = false <-> s = "".
Proof. destruct s; simpl; split; congruence. Qed.

Lemma not_strip_iff (s : string) :
  negb (Py.truthy (Py.strip s)) = Py.blank s.
Proof.
  destruct (Py.blank s) eqn:Hb.
  - apply strip_empty_iff in Hb. rewrite Hb. reflexivity.
  - destruct (Py.truthy (Py.strip s)) eqn:Ht; [reflexivity|].
    apply truthy_false_iff, strip_empty_iff in Ht. congruence.
Qed.

Lemma blank_test_iff (s : string) :
  negb (Py.truthy s) || negb (Py.truthy (Py.strip s)) = Py.blank s.
Proof.
  rewrite not_strip_iff. destruct s; reflexivity.
Qed.

(** [String.prefix] and [Py.contains] against concatenation. *)
Lemma app_cons (c : ascii) (a b : string) : String c a +:+ b = String c (a +:+ b).
Proof. reflexivity. Qed.

Lemma app_empty (b : string) : "" +:+ b = b.
Proof. reflexivity. Qed.

Lemma prefix_app_iff (w t : string) :
  String.prefix w t = true <-> exists b, t = w +:+ b.
Proof.
  revert t. induction w as [|c w IH]; intros t; simpl.
  - split; [intros _; by exists t | by destruct t].
  - destruct t as [|d t]; simpl.
    { split; [discriminate | intros [b Hb]; rewrite app_cons in Hb; discriminate]. }
    destruct (ascii_dec c d) as [->|Hne].
    + rewrite IH. split; intros [b Hb]; exists b.
      * by rewrite app_cons, Hb.
      * rewrite app_cons in Hb. by injection Hb.
    + split; [discriminate|].
      intros [b Hb]. rewrite app_cons in Hb. injection Hb as Hcd _. congruence.
Qed.

Lemma contains_unfold (w t : string) :
  Py.contains w t =
  String.prefix w t
  || match t with EmptyString => false | String _ t' => Py.contains w t' end.
Proof. destruct t; reflexivity. Qed.

Lemma contains_iff (w t : string) :
  Py.contains w t = true <-> exists a b, t = a +:+ w +:+ b.
Proof.
  induction t as [|d t IH]; rewrite contains_unfold, orb_true_iff, prefix_app_iff.
  - split.
    + intros [[b Hb]|[=]]. by exists "", b.
    + intros [[|c a] [b Hb]]; [left; by exists b|].
      rewrite app_cons in Hb. discriminate.
  - rewrite IH. split.
    + intros [[b Hb]|[a [b Hb]]]; [by exists "", b|].
      exists (String d a), b. by rewrite app_cons, Hb.
    + intros [[|c a] [b Hb]]; [left; by exists b|].
      right. rewrite app_cons in Hb. injection Hb as _ Hb. by exists a, b.
Qed.

End PyFacts.

(** ** Confidence arithmetic *)

Section Confidence.

Lemma round_half_even_Z (k : Z) : Py.round_half_even (inject_Z k) = k.
Proof.
  unfold Py.round_half_even. rewrite Qfloor_Z.
  assert (H : (inject_Z k - inject_Z k ?= 1 # 2)%Q = Lt).
  { unfold Qminus.
    rewrite (Qcompare_comp _ 0%Q (Qplus_opp_r _) _ _ (Qeq_refl _)). reflexivity. }
  by rewrite H.
Qed.

Lemma round_half_even_comp (x y : Q) :
  (x == y)%Q -> Py.round_half_even x = Py.round_half_even y.
Proof.
  intros Hxy. unfold Py.round_half_even.
  rewrite (Qfloor_comp _ _ Hxy).
  assert (H : (x - inject_Z (Qfloor y) ?= 1 # 2)%Q
              = (y - inject_Z (Qfloor y) ?= 1 # 2)%Q).
  { apply Qcompare_comp; [by rewrite Hxy | reflexivity]. }
  by rewrite H.
Qed.

(** A value with at most two decimals is its own rounding. *)
Lemma round2_hundredths (x : Q) (k : Z) :
  (x == inject_Z k / 100)%Q -> (Py.round2 x == inject_Z k / 100)%Q.
Proof.
  intros Hx. unfold Py.round2.
  rewrite (round_half_even_comp (x * 100) (inject_Z k)).
  - by rewrite round_half_even_Z.
  - rewrite Hx. field.
Qed.

Lemma raw_confidence_hundredths (diff : Z) :
  (raw_confidence diff == inject_Z (Z.min 90 (60 + 10 * diff)) / 100)%Q.
Proof.
  unfold raw_confidence.
  destruct (Z_le_gt_dec 3 diff) as [Hd|Hd].
  - rewrite Z.min_l by lia. rewrite Q.min_l.
    + reflexivity.
    + unfold Qle, Qplus, Qmult, inject_Z. simpl. lia.
  - rewrite Z.min_r by lia. rewrite Q.min_r.
    + unfold Qeq, Qdiv, Qplus, Qmult, Qinv, inject_Z. simpl. lia.
    + unfold Qle, Qplus, Qmult, inject_Z. simpl. lia.
Qed.

(** The rounded confidence of a count difference is 0.7, 0.8 or 0.9. *)
Lemma rounded_confidence (diff : Z) :
  (Py.round2 (raw_confidence diff) == inject_Z (Z.min 90 (60 + 10 * diff)) / 100)%Q.
Proof. apply round2_hundredths, raw_confidence_hundredths. Qed.

Lemma rounded_confidence_bounds (diff : Z) :
  0 < diff ->
  (7 # 10 <= Py.round2 (raw_confidence diff) <= 9 # 10)%Q.
Proof.
  intros Hd. rewrite rounded_confidence.
  assert (70 <= Z.min 90 (60 + 10 * diff) <= 90) as [Hlo Hhi] by lia.
  revert Hlo Hhi. generalize (Z.min 90 (60 + 10 * diff)). intros k Hlo Hhi.
  unfold Qle, Qdiv, Qmult, Qinv, inject_Z. simpl. lia.
Qed.

Lemma rounded_neutral : (Py.round2 (5 # 10) == 5 # 10)%Q.
Proof. reflexivity. Qed.

End Confidence.

(** ** Counting *)

Section Counting.

Lemma count_hits_entries_found (words : list string) (text_lower : string) :
  count_hits words text_lower = entries_found words text_lower.
Proof.
  unfold entries_found.
  induction words as [|word rest IH]; simpl; [reflexivity|].
  rewrite IH. destruct (Py.contains word text_lower); simpl length; lia.
Qed.

Lemma count_hits_nonneg (words : list string) (text_lower : string) :
  0 <= count_hits words text_lower.
Proof. rewrite count_hits_entries_found. unfold entries_found. lia. Qed.

(** Both scorers branch on their two counts as [decide_sentiment] does. *)
Lemma predict_sentiment_with_rule
    (positive_words negative_words : list string) (text : string) :
  Api.predict_sentiment_with positive_words negative_words text =
  let '(sentiment, confidence) :=
    decide_sentiment (count_hits positive_words (Py.lower text))
                     (count_hits negative_words (Py.lower text)) in
  {| Api.sentiment := sentiment; Api.confidence := Py.round2 confidence |}.
Proof. reflexivity. Qed.

Lemma analyze_sentiment_rule (self : Serving.SentimentModel) (text : string) :
  Serving._analyze_sentiment self text =
  if negb (Py.truthy text) || negb (Py.truthy (Py.strip text)) then
    empty_text_result (Serving.VStr text)
  else
    let '(sentiment, confidence) :=
      decide_sentiment
        (count_hits (Serving.positive_words self) (Py.lower text))
        (count_hits (Serving.negative_words self) (Py.lower text)) in
    {| Serving.text := Serving.VStr text; Serving.sentiment := sentiment;
       Serving.confidence := Py.round2 confidence; Serving.error := None |}.
Proof. reflexivity. Qed.

Lemma spec_confidence_raw (diff : Z) : (spec_confidence diff == raw_confidence diff)%Q.
Proof.
  unfold spec_confidence, raw_confidence.
  apply Q.min_compat; [reflexivity | ring].
Qed.

Lemma round2_comp (x y : Q) : (x == y)%Q -> Py.round2 x = Py.round2 y.
Proof. intros H. unfold Py.round2. by rewrite (round_half_even_comp (x * 100) (y * 100)); [|rewrite H]. Qed.

(** The three branches of [decide_sentiment]. *)
Lemma decide_sentiment_positive (pc nc : Z) :
  pc > nc -> decide_sentiment pc nc = ("positive", raw_confidence (pc - nc)).
Proof. intros H. unfold decide_sentiment. by rewrite (proj2 (Z.gtb_gt pc nc)) by lia. Qed.

Lemma decide_sentiment_negative (pc nc : Z) :
  nc > pc -> decide_sentiment pc nc = ("negative", raw_confidence (nc - pc)).
Proof.
  intros H. unfold decide_sentiment.
  destruct (pc >? nc) eqn:E1; [apply Z.gtb_gt in E1; lia|].
  by rewrite (proj2 (Z.gtb_gt nc pc)) by lia.
Qed.

Lemma decide_sentiment_neutral (pc nc : Z) :
  pc = nc -> decide_sentiment pc nc = ("neutral", 5 # 10).
Proof.
  intros ->. unfold decide_sentiment.
  destruct (nc >? nc) eqn:E1; [apply Z.gtb_gt in E1; lia|reflexivity].
Qed.

End Counting.

(** ** The API scorer *)

(** C1: for every text and every pair of word lists, [predict_sentiment]
    follows the count-imbalance rule.  With the counts being the numbers of
    positive and of negative entries found as substrings of the lowercased
    text: more positive entries give "positive" with confidence
    min(0.9, 0.6 + 0.1 * difference) rounded to two decimals, more negative
    entries give "negative" with the symmetric confidence, equal counts
    (both zero included) give "neutral" with confidence 0.5; and the
    function of [api/app.py] is this rule on the default lexicon. *)
Theorem predict_sentiment_count_rule
    (positive_words negative_words : list string) (text : string) :
  let positive_count := entries_found positive_words (Py.lower text) in
  let negative_count := entries_found negative_words (Py.lower text) in
  let r := Api.predict_sentiment_with positive_words negative_words text in
  (positive_count > negative_count ->
     Api.sentiment r = "positive" /\
     Api.confidence r = Py.round2 (spec_confidence (positive_count - negative_count)))
  /\ (negative_count > positive_count ->
     Api.sentiment r = "negative" /\
     Api.confidence r = Py.round2 (spec_confidence (negative_count - positive_count)))
  /\ (positive_count = negative_count ->
     Api.sentiment r = "neutral" /\ (Api.confidence r == 0.5)%Q)
  /\ Api.predict_sentiment text =
     Api.predict_sentiment_with
       (positive default_lexicon) (negative default_lexicon) text.
Proof.
  intros pc nc r. subst pc nc r. rewrite predict_sentiment_with_rule.
  rewrite <- !count_hits_entries_found.
  set (pc := count_hits positive_words (Py.lower text)).
  set (nc := count_hits negative_words (Py.lower text)).
  repeat split.
  - by rewrite decide_sentiment_positive.
  - rewrite decide_sentiment_positive by assumption. simpl.
    apply round2_comp. symmetry. apply spec_confidence_raw.
  - by rewrite decide_sentiment_negative.
  - rewrite decide_sentiment_negative by assumption. simpl.
    apply round2_comp. symmetry. apply spec_confidence_raw.
  - by rewrite decide_sentiment_neutral.
  - rewrite decide_sentiment_neutral by assumption. reflexivity.
Qed.

(** C2: for every lexicon and every text the confidence lies in
    [0.0, 0.9], for the API scorer and for the serving scorer alike. *)
Theorem confidence_in_range
    (self : Serving.SentimentModel) (positive_words negative_words : list string)
    (text : string) :
  (0 <= Api.confidence (Api.predict_sentiment_with positive_words negative_words text)
     <= 0.9)%Q
  /\ (0 <= Serving.confidence (Serving._analyze_sentiment self text) <= 0.9)%Q.
Proof.
  assert (Hrule : forall pc nc : Z,
             (0 <= Py.round2 (snd (decide_sentiment pc nc)) <= 0.9)%Q).
  { intros pc nc. unfold decide_sentiment.
    destruct (pc >? nc) eqn:E1; [|destruct (nc >? pc) eqn:E2]; simpl snd.
    - apply Z.gtb_gt in E1.
      destruct (rounded_confidence_bounds (pc - nc)) as [Hlo Hhi]; [lia|].
      split; [|exact Hhi]. eapply Qle_trans; [|exact Hlo]. discriminate.
    - apply Z.gtb_gt in E2.
      destruct (rounded_confidence_bounds (nc - pc)) as [Hlo Hhi]; [lia|].
      split; [|exact Hhi]. eapply Qle_trans; [|exact Hlo]. discriminate.
    - rewrite rounded_neutral. split; discriminate. }
  split.
  - rewrite predict_sentiment_with_rule.
    specialize (Hrule (count_hits positive_words (Py.lower text))
                      (count_hits negative_words (Py.lower text))).
    destruct (decide_sentiment _ _) as [s c]. exact Hrule.
  - rewrite analyze_sentiment_rule.
    destruct (negb (Py.truthy text) || negb (Py.truthy (Py.strip text))).
    + simpl. split; discriminate.
    + specialize (Hrule (count_hits (Serving.positive_words self) (Py.lower text))
                        (count_hits (Serving.negative_words self) (Py.lower text))).
      destruct (decide_sentiment _ _) as [s c]. exact Hrule.
Qed.

(** ** Blank text *)

Section BlankText.

Lemma isspace_lower_char (c : ascii) : Py.isspace (Py.lower_char c) = Py.isspace c.
Proof. destruct c as [[] [] [] [] [] [] [] []]; reflexivity. Qed.

Lemma blank_lower (s : string) : Py.blank (Py.lower s) = Py.blank s.
Proof.
  induction s as [|c s IH]; simpl; [reflexivity|].
  by rewrite isspace_lower_char, IH.
Qed.

Lemma prefix_blank (w t : string) :
  Py.blank t = true -> String.prefix w t = true -> Py.blank w = true.
Proof.
  revert t. induction w as [|c w IH]; intros [|d t]; simpl; try done.
  destruct (ascii_dec c d) as [->|]; [|done].
  intros [Hd Ht]%andb_true_iff Hp. rewrite Hd. simpl. by apply (IH t).
Qed.

Lemma contains_blank (w t : string) :
  Py.blank t = true -> Py.contains w t = true -> Py.blank w = true.
Proof.
  induction t as [|d t IH]; rewrite contains_unfold; intros Hb Hc;
    apply orb_true_iff in Hc as [Hp|Hc]; try done.
  - by apply (prefix_blank w "").
  - by apply (prefix_blank w (String d t)).
  - simpl in Hb. apply andb_true_iff in Hb as [_ Hb]. by apply IH.
Qed.

(** No word with a visible character is found in a blank text. *)
Lemma count_hits_blank (words : list string) (t : string) :
  Py.blank t = true ->
  Forall (fun w => Py.blank w = false) words ->
  count_hits words t = 0.
Proof.
  intros Hb. induction 1 as [|w rest Hw _ IH]; simpl; [reflexivity|].
  rewrite IH. destruct (Py.contains w t) eqn:Hc; [|reflexivity].
  apply (contains_blank w t Hb) in Hc. congruence.
Qed.

Lemma default_lexicon_visible :
  Forall (fun w => Py.blank w = false) (positive default_lexicon)
  /\ Forall (fun w => Py.blank w = false) (negative default_lexicon).
Proof. split; repeat constructor. Qed.

Lemma analyze_blank (self : Serving.SentimentModel) (text : string) :
  Py.blank text = true ->
  Serving._analyze_sentiment self text = empty_text_result (Serving.VStr text).
Proof.
  intros Hb. rewrite analyze_sentiment_rule.
  by rewrite blank_test_iff, Hb.
Qed.

(** On a text with a visible character the serving scorer is the API
    scorer on the model's word lists, with the text added. *)
Lemma analyze_nonblank (self : Serving.SentimentModel) (text : string) :
  Py.blank text = false ->
  Serving._analyze_sentiment self text =
  let p := Api.predict_sentiment_with
             (Serving.positive_words self) (Serving.negative_words self) text in
  {| Serving.text := Serving.VStr text;
     Serving.sentiment := Api.sentiment p;
     Serving.confidence := Api.confidence p;
     Serving.error := None |}.
Proof.
  intros Hb. rewrite analyze_sentiment_rule, predict_sentiment_with_rule.
  rewrite blank_test_iff, Hb.
  by destruct (decide_sentiment _ _).
Qed.

End BlankText.

(** The API scorer has no case for blank text: the empty string goes
    through the counts like any other text and comes out with the neutral
    confidence 0.5, so "confidence 0.0 on the empty string" fails for it. *)
Lemma predict_sentiment_empty_is_half :
  Api.sentiment (Api.predict_sentiment "") = "neutral"
  /\ (Api.confidence (Api.predict_sentiment "") == 0.5)%Q
  /\ ~ (Api.confidence (Api.predict_sentiment "") == 0)%Q.
Proof.
  split; [reflexivity|]. split; [reflexivity|].
  intros H. vm_compute in H. discriminate H.
Qed.

(** C3, as the code has it: on the empty string and on every
    whitespace-only string the serving scorer [_analyze_sentiment] yields
    "neutral" with confidence 0.0, whatever the model's word lists; the API
    scorer [predict_sentiment] yields "neutral" with confidence 0.5 there. *)
Theorem blank_text_scores (self : Serving.SentimentModel) (text : string) :
  Py.blank text = true ->
  (Serving.sentiment (Serving._analyze_sentiment self text) = "neutral"
   /\ (Serving.confidence (Serving._analyze_sentiment self text) == 0)%Q)
  /\ (Api.sentiment (Api.predict_sentiment text) = "neutral"
      /\ (Api.confidence (Api.predict_sentiment text) == 0.5)%Q).
Proof.
  intros Hb. split.
  - rewrite analyze_blank by assumption. split; reflexivity.
  - destruct default_lexicon_visible as [Hp Hn].
    unfold Api.predict_sentiment. rewrite predict_sentiment_with_rule.
    rewrite !count_hits_blank by (by rewrite ?blank_lower).
    split; reflexivity.
Qed.

Lemma blank_text_scores_witness :
  Py.blank "   " = true
  /\ (Serving.sentiment (Serving._analyze_sentiment (Serving.init "sentiment-model") "   ")
        = "neutral"
      /\ (Serving.confidence
            (Serving._analyze_sentiment (Serving.init "sentiment-model") "   ") == 0)%Q)
  /\ (Api.sentiment (Api.predict_sentiment "   ") = "neutral"
      /\ (Api.confidence (Api.predict_sentiment "   ") == 0.5)%Q).
Proof.
  split; [reflexivity|].
  apply (blank_text_scores (Serving.init "sentiment-model") "   ").
  reflexivity.
Defined.

(** ** The [/predict] endpoint *)

(** C4, evaluated on the code: for a blank text the handler raises
    [HTTPException(400, "Text cannot be empty")] inside its [try], the
    [except Exception] clause catches it, logs it and raises
    [HTTPException(500, "Internal server error")].  Nothing else is logged:
    the scoring line is not reached. *)
Theorem predict_blank_text_raises_500
    (input_data : Api.TextInput) (log : list Api.log_entry) :
  Py.blank (Api.text input_data) = true ->
  Api.predict input_data log =
    (inr (Api.HTTPException 500 "Internal server error"),
     log ++ [Api.ErrorProcessing (Api.HTTPException 400 "Text cannot be empty")]).
Proof.
  intros Hb. unfold Api.predict, Api.try_except_Exception, Api.bind.
  rewrite not_strip_iff, Hb. reflexivity.
Qed.

Lemma predict_blank_text_raises_500_witness :
  Py.blank "" = true
  /\ Api.predict {| Api.text := "" |} [] =
       (inr (Api.HTTPException 500 "Internal server error"),
        [Api.ErrorProcessing (Api.HTTPException 400 "Text cannot be empty")]).
Proof.
  split; [reflexivity|].
  apply (predict_blank_text_raises_500 {| Api.text := "" |} []).
  reflexivity.
Defined.

(** For a text with a visible character the handler answers with the
    scorer's result and logs the two [info] lines. *)
Lemma predict_nonblank_text
    (input_data : Api.TextInput) (log : list Api.log_entry) :
  Py.blank (Api.text input_data) = false ->
  let prediction := Api.predict_sentiment (Api.text input_data) in
  Api.predict input_data log =
    (inl {| Api.response_text := Api.text input_data;
            Api.response_sentiment := Api.sentiment prediction;
            Api.response_confidence := Api.confidence prediction |},
     log ++ [Api.InfoProcessing (Api.slice_to 50 (Api.text input_data));
             Api.InfoPrediction (Api.sentiment prediction) (Api.confidence prediction)]).
Proof.
  intros Hb. unfold Api.predict, Api.try_except_Exception, Api.bind.
  rewrite not_strip_iff, Hb. simpl. by rewrite <- app_assoc.
Qed.

(** ** The batch handler *)

Section Batch.

Variable self : Serving.SentimentModel.

Lemma analyze_any_bears_text (v : Serving.value) :
  bears_text v ->
  Serving._analyze_sentiment_any self v = inl (result_for self v).
Proof.
  intros [[s ->]|Hf].
  - simpl. destruct (Py.blank s) eqn:Hb.
    + by rewrite analyze_blank.
    + by rewrite analyze_nonblank.
  - destruct v as [|b|n|x|s|items|entries]; simpl in *;
      try (by rewrite Hf); try reflexivity.
    destruct s as [|c s]; [|discriminate]. by rewrite analyze_blank.
Qed.

Lemma analyze_any_raises (v : Serving.value) :
  ~ bears_text v ->
  Serving._analyze_sentiment_any self v = inr (Serving.AttributeError v "strip").
Proof.
  intros Hn.
  assert (Ht : Serving.truthy v = true).
  { destruct (Serving.truthy v) eqn:Ht; [reflexivity|]. exfalso. apply Hn. by right. }
  destruct v as [|b|n|x|s|items|entries]; simpl in *;
    try discriminate; try (by rewrite Ht).
  exfalso. apply Hn. left. by exists s.
Qed.

(** [instance_text] reads an instance as the specification says. *)
Lemma instance_text_scored_on (inst : Serving.instance) (v : Serving.value) :
  scored_on inst v -> Serving.instance_text inst = v.
Proof.
  intros [s|d w Ht|d w Ht Hd|d Ht Hd|s]; simpl; by rewrite ?Ht, ?Hd.
Qed.

(** The loop of [predict] is [score_all]: an exception passes through the
    rest of the loop, a result is appended. *)
Lemma loop_raised (instances : list Serving.instance) (e : Serving.exn) :
  fold_left
    (fun (state : list Serving.Result + Serving.exn) inst =>
       match state with
       | inr e => inr e
       | inl predictions =>
           match Serving._analyze_sentiment_any self (Serving.instance_text inst) with
           | inl result => inl (predictions ++ [result])
           | inr e => inr e
           end
       end)
    instances (inr e) = inr e.
Proof. induction instances as [|inst rest IH]; [reflexivity|exact IH]. Qed.

Lemma loop_score_all (instances : list Serving.instance) (done : list Serving.Result) :
  fold_left
    (fun (state : list Serving.Result + Serving.exn) inst =>
       match state with
       | inr e => inr e
       | inl predictions =>
           match Serving._analyze_sentiment_any self (Serving.instance_text inst) with
           | inl result => inl (predictions ++ [result])
           | inr e => inr e
           end
       end)
    instances (inl done)
  = match score_all self instances with
    | inl results => inl (done ++ results)
    | inr e => inr e
    end.
Proof.
  revert done. induction instances as [|inst rest IH]; intros done; simpl.
  - by rewrite app_nil_r.
  - destruct (Serving._analyze_sentiment_any self (Serving.instance_text inst))
      as [result|e].
    + rewrite IH. destruct (score_all self rest); [|reflexivity].
      by rewrite <- app_assoc.
    + apply loop_raised.
Qed.

Lemma predict_score_all (payload : gmap string (list Serving.instance)) :
  Serving.predict self payload =
  match score_all self (default [] (payload !! "instances")) with
  | inl results => inl {| Serving.predictions := results |}
  | inr e => inr e
  end.
Proof.
  unfold Serving.predict.
  destruct (default [] (payload !! "instances")) as [|inst rest]; [reflexivity|].
  rewrite loop_score_all. by destruct (score_all self (inst :: rest)).
Qed.

Lemma score_all_bears_text
    (instances : list Serving.instance) (values : list Serving.value) :
  Forall2 scored_on instances values ->
  Forall bears_text values ->
  score_all self instances = inl (map (result_for self) values).
Proof.
  induction 1 as [|inst v rest values Hs _ IH]; intros Hb; [reflexivity|].
  apply Forall_cons in Hb as [Hv Hb]. simpl.
  rewrite (instance_text_scored_on inst v Hs), (analyze_any_bears_text v Hv).
  by rewrite (IH Hb).
Qed.

Lemma score_all_raises
    (instances : list Serving.instance) (values : list Serving.value) :
  Forall2 scored_on instances values ->
  Exists (fun v => ~ bears_text v) values ->
  exists v, v ∈ values /\ ~ bears_text v
            /\ score_all self instances = inr (Serving.AttributeError v "strip").
Proof.
  induction 1 as [|inst v rest values Hs _ IH]; intros Hex.
  - by apply Exists_nil in Hex.
  - simpl. rewrite (instance_text_scored_on inst v Hs).
    destruct (Serving._analyze_sentiment_any self v) as [result|e] eqn:Hv.
    + apply Exists_cons in Hex as [Hn|Hex].
      { rewrite (analyze_any_raises v Hn) in Hv. discriminate. }
      destruct (IH Hex) as (w & Hin & Hn & Hw). exists w.
      split; [by right|]. split; [done|]. by rewrite Hw.
    + assert (Hn : ~ bears_text v).
      { intros Hb. rewrite (analyze_any_bears_text v Hb) in Hv. discriminate. }
      exists v. split; [by left|]. split; [done|].
      rewrite (analyze_any_raises v Hn) in Hv. by injection Hv as <-.
Qed.

Lemma score_all_app (first second : list Serving.instance) :
  score_all self (first ++ second) =
  match score_all self first, score_all self second with
  | inl r1, inl r2 => inl (r1 ++ r2)
  | inr e, _ => inr e
  | inl _, inr e => inr e
  end.
Proof.
  induction first as [|inst rest IH]; simpl.
  - by destruct (score_all self second).
  - destruct (Serving._analyze_sentiment_any self (Serving.instance_text inst));
      [|reflexivity].
    rewrite IH. destruct (score_all self rest); [|reflexivity].
    by destruct (score_all self second).
Qed.

End Batch.

(** A batch with a blank string and a dictionary whose "text" is the
    number 123: the number is true and has no [strip], the call raises
    [AttributeError] and the whole batch, the blank instance included,
    gets no prediction. *)
Lemma predict_loses_batch_with_number_field :
  Serving.predict (Serving.init "sentiment-model")
    {["instances" :=
        [Serving.InstStr "   ";
         Serving.InstDict {["text" := Serving.VInt 123]}]]}
  = inr (Serving.AttributeError (Serving.VInt 123) "strip").
Proof. reflexivity. Qed.

(** C5, as the code has it: a batch with a blank instance, in which every
    instance bears text (what it is scored on is a string, or an object
    that is false), is not rejected.  At the position of a blank value
    the predictions hold the record with the marker "Empty text
    provided", sentiment "neutral" and confidence 0.0 around that value;
    at the position of a string with a visible character they hold that
    text's score, the one the API scorer computes on the model's word
    lists, without a marker. *)
Theorem predict_marks_blank_instance
    (self : Serving.SentimentModel) (payload : gmap string (list Serving.instance))
    (instances : list Serving.instance) (values : list Serving.value)
    (k : nat) (v : Serving.value) :
  payload !! "instances" = Some instances ->
  Forall2 scored_on instances values ->
  Forall bears_text values ->
  values !! k = Some v ->
  blank_value v = true ->
  exists response,
    Serving.predict self payload = inl response
    /\ length (Serving.predictions response) = length instances
    /\ Serving.predictions response !! k =
         Some {| Serving.text := v;
                 Serving.sentiment := "neutral";
                 Serving.confidence := 0.0;
                 Serving.error := Some "Empty text provided" |}
    /\ forall (j : nat) (s : string),
         values !! j = Some (Serving.VStr s) ->
         Py.blank s = false ->
         let p := Api.predict_sentiment_with
                    (Serving.positive_words self) (Serving.negative_words self) s in
         Serving.predictions response !! j =
           Some {| Serving.text := Serving.VStr s;
                   Serving.sentiment := Api.sentiment p;
                   Serving.confidence := Api.confidence p;
                   Serving.error := None |}.
Proof.
  intros Hp Hs Hb Hk Hv.
  exists {| Serving.predictions := map (result_for self) values |}.
  split; [|split; [|split]].
  - rewrite predict_score_all, Hp. simpl.
    by rewrite (score_all_bears_text self instances values Hs Hb).
  - simpl. rewrite length_map. symmetry. by apply (Forall2_length scored_on).
  - simpl. rewrite list_lookup_fmap, Hk. simpl. f_equal.
    destruct v; simpl in *; try reflexivity. by rewrite Hv.
  - intros j s Hj Hnb p. simpl. rewrite list_lookup_fmap, Hj. simpl.
    by rewrite Hnb.
Qed.

Lemma predict_marks_blank_instance_witness :
  let self := Serving.init "sentiment-model" in
  let worst := "This is the worst experience ever" in
  exists response,
    Serving.predict self
      {["instances" :=
          [Serving.InstStr "I love this amazing feature!"; Serving.InstStr "   ";
           Serving.InstDict {["text" := Serving.VStr worst]}]]}
    = inl response
    /\ Serving.predictions response !! 1%nat =
         Some {| Serving.text := Serving.VStr "   ";
                 Serving.sentiment := "neutral";
                 Serving.confidence := 0.0;
                 Serving.error := Some "Empty text provided" |}
    /\ Serving.predictions response !! 2%nat =
         Some {| Serving.text := Serving.VStr worst;
                 Serving.sentiment := "negative";
                 Serving.confidence := Api.confidence (Api.predict_sentiment worst);
                 Serving.error := None |}.
Proof.
  intros self worst.
  destruct (predict_marks_blank_instance self
              {["instances" :=
                  [Serving.InstStr "I love this amazing feature!"; Serving.InstStr "   ";
                   Serving.InstDict {["text" := Serving.VStr worst]}]]}
              [Serving.InstStr "I love this amazing feature!"; Serving.InstStr "   ";
               Serving.InstDict {["text" := Serving.VStr worst]}]
              [Serving.VStr "I love this amazing feature!"; Serving.VStr "   ";
               Serving.VStr worst]
              1 (Serving.VStr "   "))
    as (response & Hr & _ & Hblank & Hother).
  - reflexivity.
  - apply List.Forall2_cons; [apply scored_on_string|].
    apply List.Forall2_cons; [apply scored_on_string|].
    apply List.Forall2_cons; [by apply scored_on_text|]. apply List.Forall2_nil.
  - repeat (apply List.Forall_cons; [left; by eexists|]). apply List.Forall_nil.
  - reflexivity.
  - reflexivity.
  - exists response. split; [exact Hr|]. split; [exact Hblank|].
    apply (Hother 2%nat worst); reflexivity.
Defined.

(** A payload whose one instance is a dictionary with the number 123
    under "text": [predict] raises [AttributeError] and returns no
    prediction for it. *)
Lemma predict_raises_on_number_field :
  Serving.predict (Serving.init "sentiment-model")
    {["instances" := [Serving.InstDict {["text" := Serving.VInt 123]}]]}
  = inr (Serving.AttributeError (Serving.VInt 123) "strip")
  /\ forall response,
       Serving.predict (Serving.init "sentiment-model")
         {["instances" := [Serving.InstDict {["text" := Serving.VInt 123]}]]}
       <> inl response.
Proof. split; [reflexivity|]. intros response. discriminate. Qed.

(** C10, as the code has it: for every payload whose instances all bear
    text, the handler returns one prediction per instance, in input
    order: the prediction of each value the instance is scored on.  A
    payload with an instance scored on an object that is true and not a
    string makes it raise [AttributeError] on that object and return
    nothing.  Without the key "instances", or with an empty list under
    it, it returns the empty list of predictions; and a dictionary
    instance with neither "text" nor "data" is scored as the empty
    string, which gives the empty-text record. *)
Theorem predict_one_prediction_per_instance
    (self : Serving.SentimentModel) (payload : gmap string (list Serving.instance))
    (instances : list Serving.instance) (values : list Serving.value) :
  payload !! "instances" = Some instances ->
  Forall2 scored_on instances values ->
  (Forall bears_text values ->
     exists response,
       Serving.predict self payload = inl response
       /\ length (Serving.predictions response) = length instances
       /\ forall (k : nat) (v : Serving.value),
            values !! k = Some v ->
            Serving.predictions response !! k = Some (result_for self v))
  /\ (Exists (fun v => ~ bears_text v) values ->
      exists v, v ∈ values /\ ~ bears_text v
                /\ Serving.predict self payload
                   = inr (Serving.AttributeError v "strip"))
  /\ (forall other : gmap string (list Serving.instance),
        other !! "instances" = None \/ other !! "instances" = Some [] ->
        Serving.predict self other = inl {| Serving.predictions := [] |})
  /\ (forall d : gmap string Serving.value,
        d !! "text" = None -> d !! "data" = None ->
        Serving.predict self {["instances" := [Serving.InstDict d]]}
        = inl {| Serving.predictions :=
                   [{| Serving.text := Serving.VStr "";
                       Serving.sentiment := "neutral";
                       Serving.confidence := 0.0;
                       Serving.error := Some "Empty text provided" |}] |}).
Proof.
  intros Hp Hs. split; [|split; [|split]].
  - intros Hb. exists {| Serving.predictions := map (result_for self) values |}.
    split; [|split].
    + rewrite predict_score_all, Hp. simpl.
      by rewrite (score_all_bears_text self instances values Hs Hb).
    + simpl. rewrite length_map. symmetry. by apply (Forall2_length scored_on).
    + intros k v Hk. simpl. by rewrite list_lookup_fmap, Hk.
  - intros Hex.
    destruct (score_all_raises self instances values Hs Hex) as (v & Hin & Hn & Hv).
    exists v. split; [done|]. split; [done|].
    rewrite predict_score_all, Hp. simpl. by rewrite Hv.
  - intros other [H|H]; unfold Serving.predict; by rewrite H.
  - intros d Ht Hd. unfold Serving.predict. rewrite lookup_singleton_eq. simpl.
    by rewrite Ht, Hd.
Qed.

Lemma predict_one_prediction_per_instance_witness :
  let self := Serving.init "sentiment-model" in
  let instances :=
    [Serving.InstStr "This is a great product!";
     Serving.InstDict {["data" := Serving.VStr "I hate this terrible service"]};
     Serving.InstDict ∅;
     Serving.InstOther "42";
     Serving.InstDict {["text" := Serving.VNone]}] in
  exists response,
    Serving.predict self {["instances" := instances]} = inl response
    /\ length (Serving.predictions response) = 5%nat
    /\ Serving.sentiment <$> Serving.predictions response !! 1%nat = Some "negative"
    /\ Serving.predictions response !! 4%nat = Some (empty_text_result Serving.VNone).
Proof.
  intros self instances.
  destruct (predict_one_prediction_per_instance self {["instances" := instances]}
              instances
              [Serving.VStr "This is a great product!";
               Serving.VStr "I hate this terrible service";
               Serving.VStr ""; Serving.VStr "42"; Serving.VNone])
    as (Hok & _).
  - reflexivity.
  - subst instances.
    apply List.Forall2_cons; [apply scored_on_string|].
    apply List.Forall2_cons; [by apply scored_on_data|].
    apply List.Forall2_cons; [by apply scored_on_nothing|].
    apply List.Forall2_cons; [apply scored_on_other|].
    apply List.Forall2_cons; [by apply scored_on_text|]. apply List.Forall2_nil.
  - destruct Hok as (response & Hr & Hlen & Hat).
    + repeat (apply List.Forall_cons; [left; by eexists|]).
      apply List.Forall_cons; [by right|apply List.Forall_nil].
    + exists response. split; [exact Hr|]. split; [exact Hlen|]. split.
      * by rewrite (Hat 1%nat (Serving.VStr "I hate this terrible service")).
      * by rewrite (Hat 4%nat Serving.VNone).
Defined.

(** ** Lexicon derivation *)

#[local] Set Warnings "-clear-no-such-hyp".

Section Derivation.

Lemma extract_loop (data : list (string * string)) (P N : gset string) :
  fold_left Training.extract_step data (P, N) =
  (P ∪ labelled_words "positive" data, N ∪ labelled_words "negative" data).
Proof.
  revert P N. induction data as [|[text label] rest IH]; intros P N; simpl.
  - f_equal; set_solver.
  - destruct (String.eqb label "positive") eqn:Ep.
    + apply String.eqb_eq in Ep as ->. simpl. rewrite IH. f_equal; set_solver.
    + destruct (String.eqb label "negative") eqn:En; rewrite IH; f_equal; set_solver.
Qed.

End Derivation.

(** C6: for every labelled corpus, [extract_features] returns as
    positive words the lowercased whitespace-split words of the
    positive-labelled examples minus those that also occur in a
    negative-labelled example, and symmetrically for the negative words, so
    the two sets are disjoint; the common words are the words of both.  From
    [("I love this", "positive"), ("I hate this", "negative")] it puts
    "this" and "i" among the common words, "love" among the positive words
    only and "hate" among the negative words only. *)
Theorem extract_features_lexicon (data : list (string * string)) :
  let features := Training.extract_features data in
  Training.positive_words features =
    labelled_words "positive" data ∖ labelled_words "negative" data
  /\ Training.negative_words features =
    labelled_words "negative" data ∖ labelled_words "positive" data
  /\ Training.common_words features =
    labelled_words "positive" data ∩ labelled_words "negative" data
  /\ Training.positive_words features ## Training.negative_words features
  /\ (let example :=
        Training.extract_features
          [("I love this", "positive"); ("I hate this", "negative")] in
      Training.common_words example = {["this"; "i"]}
      /\ Training.positive_words example = {["love"]}
      /\ Training.negative_words example = {["hate"]}).
Proof.
  intros features. subst features. split; [|split; [|split; [|split]]].
  5: { cbv zeta. repeat split; by vm_compute. }
  all: unfold Training.extract_features; rewrite extract_loop; simpl; set_solver.
Qed.

(** ** Exchanging the two word lists *)

Section Swap.

(** The rule on exchanged counts: the same confidence, the opposite
    sentiment. *)
Lemma decide_sentiment_swap (pc nc : Z) :
  snd (decide_sentiment nc pc) = snd (decide_sentiment pc nc)
  /\ (fst (decide_sentiment pc nc) = "positive" -> fst (decide_sentiment nc pc) = "negative")
  /\ (fst (decide_sentiment pc nc) = "negative" -> fst (decide_sentiment nc pc) = "positive")
  /\ (fst (decide_sentiment pc nc) = "neutral" -> fst (decide_sentiment nc pc) = "neutral").
Proof.
  unfold decide_sentiment.
  destruct (pc >? nc) eqn:E1, (nc >? pc) eqn:E2; simpl;
    try (apply Z.gtb_gt in E1); try (apply Z.gtb_gt in E2);
    try lia; repeat split; intros; congruence.
Qed.

Lemma analyze_swap (self : Serving.SentimentModel) (text : string) :
  let r := Serving._analyze_sentiment self text in
  let r' := Serving._analyze_sentiment (swap_model self) text in
  Serving.confidence r' = Serving.confidence r
  /\ (Serving.sentiment r = "positive" -> Serving.sentiment r' = "negative")
  /\ (Serving.sentiment r = "negative" -> Serving.sentiment r' = "positive")
  /\ (Serving.sentiment r = "neutral" -> Serving.sentiment r' = "neutral").
Proof.
  cbv zeta. rewrite !analyze_sentiment_rule.
  destruct (negb (Py.truthy text) || negb (Py.truthy (Py.strip text))).
  - simpl. repeat split; intros; congruence.
  - simpl Serving.positive_words. simpl Serving.negative_words.
    destruct (decide_sentiment_swap
                (count_hits (Serving.positive_words self) (Py.lower text))
                (count_hits (Serving.negative_words self) (Py.lower text)))
      as (Hc & Hp & Hn & Hz).
    destruct (decide_sentiment (count_hits (Serving.positive_words self) _) _) as [s c].
    destruct (decide_sentiment (count_hits (Serving.negative_words self) _) _) as [s' c'].
    simpl in *. subst c'. auto.
Qed.

Lemma predict_single_swap (self : Training.SimpleModelTrainer) (text : string) :
  let s := Training._predict_single self text in
  let s' := Training._predict_single (swap_trainer self) text in
  (s = "positive" -> s' = "negative")
  /\ (s = "negative" -> s' = "positive")
  /\ (s = "neutral" -> s' = "neutral").
Proof.
  cbv zeta. unfold Training._predict_single, swap_trainer.
  destruct self as [[m|]]; simpl.
  - destruct (count_hits (Training.model_positive_words m) (Py.lower text)
              >? count_hits (Training.model_negative_words m) (Py.lower text)) eqn:E1,
             (count_hits (Training.model_negative_words m) (Py.lower text)
              >? count_hits (Training.model_positive_words m) (Py.lower text)) eqn:E2;
      try (apply Z.gtb_gt in E1); try (apply Z.gtb_gt in E2);
      try lia; repeat split; intros; congruence.
  - repeat split; intros; congruence.
Qed.

End Swap.

(** C7: for every text and every pair of word lists, exchanging the
    positive and the negative list turns a "positive" score into a
    "negative" one with the same confidence and a "negative" score into a
    "positive" one with the same confidence, and leaves a "neutral" score
    "neutral"; so for the serving scorer, and so (on the sentiment, which
    is all it returns) for the trainer's [_predict_single]. *)
Theorem swap_lexicons_swaps_sentiment
    (self : Serving.SentimentModel) (trainer : Training.SimpleModelTrainer)
    (text : string) :
  let r := Serving._analyze_sentiment self text in
  let r' := Serving._analyze_sentiment (swap_model self) text in
  let s := Training._predict_single trainer text in
  let s' := Training._predict_single (swap_trainer trainer) text in
  (Serving.sentiment r = "positive" ->
     Serving.sentiment r' = "negative" /\ Serving.confidence r' = Serving.confidence r)
  /\ (Serving.sentiment r = "negative" ->
     Serving.sentiment r' = "positive" /\ Serving.confidence r' = Serving.confidence r)
  /\ (Serving.sentiment r = "neutral" ->
     Serving.sentiment r' = "neutral" /\ Serving.confidence r' = Serving.confidence r)
  /\ (s = "positive" -> s' = "negative")
  /\ (s = "negative" -> s' = "positive")
  /\ (s = "neutral" -> s' = "neutral").
Proof.
  intros r r' s s'.
  destruct (analyze_swap self text) as (Hc & Hp & Hn & Hz).
  destruct (predict_single_swap trainer text) as (Tp & Tn & Tz).
  fold r r' in Hc, Hp, Hn, Hz. fold s s' in Tp, Tn, Tz.
  repeat split; auto.
Qed.

(** ** Substring matching *)

Section Substring.

Lemma app_assoc_string (a b c : string) : (a +:+ b) +:+ c = a +:+ b +:+ c.
Proof.
  induction a as [|x a IH]; [reflexivity|].
  by rewrite !app_cons, IH.
Qed.

(** An entry inside a longer word of the text is found. *)
Lemma contains_inside (w pre post t : string) :
  Py.contains (pre +:+ w +:+ post) t = true -> Py.contains w t = true.
Proof.
  rewrite !contains_iff. intros (a & b & ->).
  exists (a +:+ pre), (post +:+ b).
  by rewrite !app_assoc_string.
Qed.

(** The counts of the default lexicon when "sad" is its one entry found. *)
Lemma only_sad_counts (t : string) :
  Py.contains "sad" t = true ->
  (forall w, In w (positive default_lexicon ++ negative default_lexicon) ->
             w <> "sad" -> Py.contains w t = false) ->
  count_hits (positive default_lexicon) t = 0
  /\ count_hits (negative default_lexicon) t = 1.
Proof.
  intros Hsad Hother.
  assert (Hw : forall w, w <> "sad" ->
                 In w (positive default_lexicon ++ negative default_lexicon) ->
                 Py.contains w t = false) by auto.
  unfold default_lexicon, positive, negative, count_hits.
  rewrite Hsad.
  rewrite !Hw by (discriminate || (simpl; tauto)).
  split; reflexivity.
Qed.

End Substring.

(** C8: matching is substring containment on the lowercased text, not
    whole-word matching.  An entry is found exactly when the text is some
    prefix, the entry, some suffix; an entry inside a longer word is
    therefore counted; every text whose lowercase form contains "sadly" and
    no entry of the default lexicon other than "sad" scores "negative" with
    confidence 0.7 in the API scorer and in the serving scorer; and "sadly"
    itself is such a text, although "sad" is none of its words. *)
Theorem matching_is_substring_containment :
  (forall w t : string,
      Py.contains w t = true <-> exists a b, t = a +:+ w +:+ b)
  /\ (forall (words : list string) (w pre post text : string),
        In w words ->
        Py.contains (pre +:+ w +:+ post) (Py.lower text) = true ->
        1 <= count_hits words (Py.lower text))
  /\ (forall (text : string),
        Py.contains "sadly" (Py.lower text) = true ->
        (forall w, In w (positive default_lexicon ++ negative default_lexicon) ->
                   w <> "sad" -> Py.contains w (Py.lower text) = false) ->
        let p := Api.predict_sentiment text in
        let r := Serving._analyze_sentiment (Serving.init "sentiment-model") text in
        Api.sentiment p = "negative" /\ (Api.confidence p == 0.7)%Q
        /\ Serving.sentiment r = "negative" /\ (Serving.confidence r == 0.7)%Q)
  /\ Api.sentiment (Api.predict_sentiment "sadly") = "negative"
  /\ (Api.confidence (Api.predict_sentiment "sadly") == 0.7)%Q
  /\ Py.split (Py.lower "sadly") = ["sadly"].
Proof.
  split; [exact contains_iff|]. split; [|split].
  - intros words w pre post text Hin Hc. apply contains_inside in Hc.
    induction words as [|x rest IH]; [destruct Hin|]. simpl.
    destruct Hin as [->|Hin].
    + rewrite Hc. pose proof (count_hits_nonneg rest (Py.lower text)). lia.
    + specialize (IH Hin). destruct (Py.contains x (Py.lower text)); lia.
  - intros text Hsadly Hother.
    assert (Hsad : Py.contains "sad" (Py.lower text) = true).
    { apply (contains_inside "sad" "" "ly"). exact Hsadly. }
    destruct (only_sad_counts _ Hsad Hother) as [Hp Hn].
    assert (Hnb : Py.blank text = false).
    { destruct (Py.blank text) eqn:Hb; [|reflexivity].
      rewrite <- blank_lower in Hb.
      by apply (contains_blank "sad") in Hb. }
    cbv zeta. rewrite (analyze_nonblank _ _ Hnb).
    change (Serving.positive_words (Serving.init "sentiment-model"))
      with (positive default_lexicon).
    change (Serving.negative_words (Serving.init "sentiment-model"))
      with (negative default_lexicon).
    fold (Api.predict_sentiment text).
    unfold Api.predict_sentiment. rewrite predict_sentiment_with_rule, Hp, Hn.
    repeat split; reflexivity.
  - repeat split; reflexivity.
Qed.

(** * Further properties of the code *)

(** ** The API scorer: outcomes, case, word order *)

Section ScorerFacts.

Lemma lower_char_idempotent (c : ascii) :
  Py.lower_char (Py.lower_char c) = Py.lower_char c.
Proof. destruct c as [[] [] [] [] [] [] [] []]; reflexivity. Qed.

Lemma lower_idempotent (s : string) : Py.lower (Py.lower s) = Py.lower s.
Proof.
  induction s as [|c s IH]; simpl; [reflexivity|].
  by rewrite lower_char_idempotent, IH.
Qed.

(** What is found at the head of, or inside, a lowercase text is lowercase. *)
Lemma prefix_lowercase (w t : string) :
  Py.lower t = t -> String.prefix w t = true -> Py.lower w = w.
Proof.
  revert t. induction w as [|c w IH]; intros [|d t]; simpl; try done.
  destruct (ascii_dec c d) as [->|]; [|done].
  intros [= Hd Ht] Hp. rewrite Hd. f_equal. by apply (IH t).
Qed.

Lemma contains_lowercase (w t : string) :
  Py.lower t = t -> Py.contains w t = true -> Py.lower w = w.
Proof.
  induction t as [|d t IH]; rewrite contains_unfold; intros Hl Hc;
    apply orb_true_iff in Hc as [Hp|Hc]; try done.
  - by apply (prefix_lowercase w "").
  - by apply (prefix_lowercase w (String d t)).
  - simpl in Hl. injection Hl as _ Hl. by apply IH.
Qed.

Lemma count_hits_perm (words words' : list string) (t : string) :
  words ≡ₚ words' -> count_hits words t = count_hits words' t.
Proof.
  induction 1 as [|x l l' _ IH|x y l|l l' l'' _ IH1 _ IH2]; simpl.
  - reflexivity.
  - by rewrite IH.
  - lia.
  - by rewrite IH1.
Qed.

Lemma rounded_confidence_value (diff k : Z) :
  Z.min 90 (60 + 10 * diff) = k ->
  (Py.round2 (raw_confidence diff) == inject_Z k / 100)%Q.
Proof. intros <-. apply rounded_confidence. Qed.

Lemma not_half (q : Q) : (7 # 10 <= q)%Q -> ~ (q == 0.5)%Q.
Proof.
  intros Hlo Heq. rewrite Heq in Hlo. revert Hlo. unfold Qle. simpl. lia.
Qed.

End ScorerFacts.

(** X1: the sentiment is one of the three labels; it is "neutral" exactly
    when the two counts are equal, and exactly then the confidence is 0.5;
    a difference of one entry gives 0.7, of two 0.8, and of three or more
    0.9, where the confidence stays. *)
Theorem predict_sentiment_confidence_steps
    (positive_words negative_words : list string) (text : string) :
  let positive_count := entries_found positive_words (Py.lower text) in
  let negative_count := entries_found negative_words (Py.lower text) in
  let r := Api.predict_sentiment_with positive_words negative_words text in
  (Api.sentiment r = "positive" \/ Api.sentiment r = "negative"
   \/ Api.sentiment r = "neutral")
  /\ (Api.sentiment r = "neutral" <-> positive_count = negative_count)
  /\ (Api.sentiment r = "neutral" <-> (Api.confidence r == 0.5)%Q)
  /\ (Z.abs (positive_count - negative_count) = 1 -> (Api.confidence r == 0.7)%Q)
  /\ (Z.abs (positive_count - negative_count) = 2 -> (Api.confidence r == 0.8)%Q)
  /\ (3 <= Z.abs (positive_count - negative_count) -> (Api.confidence r == 0.9)%Q).
Proof.
  intros pc nc r. subst pc nc r. rewrite predict_sentiment_with_rule.
  rewrite <- !count_hits_entries_found.
  set (pc := count_hits positive_words (Py.lower text)).
  set (nc := count_hits negative_words (Py.lower text)).
  destruct (Z.lt_trichotomy pc nc) as [Hlt|[Heq|Hgt]].
  - rewrite decide_sentiment_negative by lia. simpl.
    destruct (rounded_confidence_bounds (nc - pc)) as [Hlo _]; [lia|].
    repeat split; try (intros; (discriminate || lia)); auto.
    + intros H. by apply not_half in H.
    + intros H. by rewrite (rounded_confidence_value _ 70) by lia.
    + intros H. by rewrite (rounded_confidence_value _ 80) by lia.
    + intros H. by rewrite (rounded_confidence_value _ 90) by lia.
  - rewrite decide_sentiment_neutral by assumption. simpl.
    repeat split; try (intros; (discriminate || lia)); auto.
  - rewrite decide_sentiment_positive by lia. simpl.
    destruct (rounded_confidence_bounds (pc - nc)) as [Hlo _]; [lia|].
    repeat split; try (intros; (discriminate || lia)); auto.
    + intros H. by apply not_half in H.
    + intros H. by rewrite (rounded_confidence_value _ 70) by lia.
    + intros H. by rewrite (rounded_confidence_value _ 80) by lia.
    + intros H. by rewrite (rounded_confidence_value _ 90) by lia.
Qed.

(** X2: scoring looks at the lowercased text only, so a text and its
    lowercase form score alike for any word lists; the word lists are not
    lowercased, so an entry with a capital letter in it is never found. *)
Theorem scoring_ignores_case_of_text_only
    (positive_words negative_words : list string) (text : string) :
  Api.predict_sentiment_with positive_words negative_words (Py.lower text)
    = Api.predict_sentiment_with positive_words negative_words text
  /\ (forall word : string,
        Py.lower word <> word ->
        Py.contains word (Py.lower text) = false
        /\ count_hits (word :: positive_words) (Py.lower text)
           = count_hits positive_words (Py.lower text)).
Proof.
  split.
  - rewrite !predict_sentiment_with_rule. by rewrite lower_idempotent.
  - intros word Hw.
    assert (Hc : Py.contains word (Py.lower text) = false).
    { destruct (Py.contains word (Py.lower text)) eqn:Hc; [|reflexivity].
      apply contains_lowercase in Hc; [contradiction|apply lower_idempotent]. }
    split; [exact Hc|]. simpl. by rewrite Hc.
Qed.

(** X3: with the default lexicon, every text that contains "dislike" also
    contains the positive entry "like", so its positive count is at least
    one; when these two are the only entries found the text scores
    "neutral" with confidence 0.5. *)
Theorem dislike_is_offset_by_like (text : string) :
  Py.contains "dislike" (Py.lower text) = true ->
  Py.contains "like" (Py.lower text) = true
  /\ 1 <= count_hits (positive default_lexicon) (Py.lower text)
  /\ ((forall w, In w (positive default_lexicon ++ negative default_lexicon) ->
                 w <> "like" -> w <> "dislike" ->
                 Py.contains w (Py.lower text) = false) ->
      Api.sentiment (Api.predict_sentiment text) = "neutral"
      /\ (Api.confidence (Api.predict_sentiment text) == 0.5)%Q).
Proof.
  intros Hd.
  assert (Hl : Py.contains "like" (Py.lower text) = true).
  { by apply (contains_inside "like" "dis" ""). }
  split; [exact Hl|]. split.
  - unfold default_lexicon, positive, count_hits. rewrite Hl.
    repeat match goal with
           | |- context [Py.contains ?w ?t] => destruct (Py.contains w t)
           end; lia.
  - intros Hother.
    assert (Hw : forall w, w <> "like" -> w <> "dislike" ->
                   In w (positive default_lexicon ++ negative default_lexicon) ->
                   Py.contains w (Py.lower text) = false) by auto.
    unfold Api.predict_sentiment. rewrite predict_sentiment_with_rule.
    unfold default_lexicon, positive, negative, count_hits.
    rewrite Hl, Hd.
    rewrite !Hw by (discriminate || (simpl; tauto)).
    split; reflexivity.
Qed.

Lemma dislike_is_offset_by_like_witness :
  Py.contains "dislike" (Py.lower "I dislike this") = true
  /\ Py.contains "like" (Py.lower "I dislike this") = true
  /\ 1 <= count_hits (positive default_lexicon) (Py.lower "I dislike this").
Proof.
  split; [reflexivity|].
  destruct (dislike_is_offset_by_like "I dislike this") as (H1 & H2 & _);
    [reflexivity|].
  split; [exact H1 | exact H2].
Defined.

(** X4: the order of the entries in a word list does not matter: word
    lists that are rearrangements of one another give the same result, in
    the API scorer and in [_predict_single] (whose lists come out of
    [list(a_set)] in an order Python leaves open). *)
Theorem word_order_is_irrelevant
    (positive_words positive_words' negative_words negative_words' : list string)
    (text : string) :
  positive_words ≡ₚ positive_words' ->
  negative_words ≡ₚ negative_words' ->
  Api.predict_sentiment_with positive_words negative_words text
    = Api.predict_sentiment_with positive_words' negative_words' text
  /\ Training._predict_single
       {| Training.model_data :=
            Some {| Training.model_positive_words := positive_words;
                    Training.model_negative_words := negative_words |} |} text
     = Training._predict_single
       {| Training.model_data :=
            Some {| Training.model_positive_words := positive_words';
                    Training.model_negative_words := negative_words' |} |} text.
Proof.
  intros Hp Hn. split.
  - rewrite !predict_sentiment_with_rule.
    by rewrite (count_hits_perm _ _ _ Hp), (count_hits_perm _ _ _ Hn).
  - unfold Training._predict_single. simpl.
    by rewrite (count_hits_perm _ _ _ Hp), (count_hits_perm _ _ _ Hn).
Qed.

Lemma word_order_is_irrelevant_witness :
  Api.predict_sentiment_with ["good"; "love"] ["bad"; "hate"] "I love it"
    = Api.predict_sentiment_with ["love"; "good"] ["hate"; "bad"] "I love it".
Proof.
  apply (word_order_is_irrelevant
           ["good"; "love"] ["love"; "good"] ["bad"; "hate"] ["hate"; "bad"]
           "I love it"); apply perm_swap.
Defined.

(** ** The [/predict] endpoint: answers and errors *)

Section Endpoint.

Lemma slice_to_length (n : nat) (s : string) :
  (String.length (Api.slice_to n s) <= n)%nat.
Proof.
  revert s. induction n as [|n IH]; intros [|c s]; simpl; try lia.
  specialize (IH s). lia.
Qed.

Lemma slice_to_prefix (n : nat) (s : string) :
  String.prefix (Api.slice_to n s) s = true.
Proof.
  revert s. induction n as [|n IH]; intros [|c s]; simpl; try reflexivity.
  destruct (ascii_dec c c); [apply IH|contradiction].
Qed.

Lemma slice_to_short (n : nat) (s : string) :
  (String.length s <= n)%nat -> Api.slice_to n s = s.
Proof.
  revert s. induction n as [|n IH]; intros [|c s]; simpl; try reflexivity; try lia.
  intros H. f_equal. apply IH. lia.
Qed.

End Endpoint.

(** X5: for a text with a visible character the endpoint answers with the
    text as sent and the sentiment and confidence of [predict_sentiment];
    it adds two lines to the log, the first with at most the first fifty
    characters of the text (all of it when it is that short), and changes
    no earlier line. *)
Theorem predict_answers_with_the_score
    (input_data : Api.TextInput) (log : list Api.log_entry) :
  Py.blank (Api.text input_data) = false ->
  let prediction := Api.predict_sentiment (Api.text input_data) in
  let shown := Api.slice_to 50 (Api.text input_data) in
  Api.predict input_data log =
    (inl {| Api.response_text := Api.text input_data;
            Api.response_sentiment := Api.sentiment prediction;
            Api.response_confidence := Api.confidence prediction |},
     log ++ [Api.InfoProcessing shown;
             Api.InfoPrediction (Api.sentiment prediction) (Api.confidence prediction)])
  /\ (String.length shown <= 50)%nat
  /\ String.prefix shown (Api.text input_data) = true
  /\ ((String.length (Api.text input_data) <= 50)%nat -> shown = Api.text input_data).
Proof.
  intros Hb prediction shown. split; [|split; [|split]].
  - by apply predict_nonblank_text.
  - apply slice_to_length.
  - apply slice_to_prefix.
  - apply slice_to_short.
Qed.

Lemma predict_answers_with_the_score_witness :
  Py.blank "This is terrible and awful" = false
  /\ fst (Api.predict {| Api.text := "This is terrible and awful" |} [])
     = inl {| Api.response_text := "This is terrible and awful";
              Api.response_sentiment :=
                Api.sentiment (Api.predict_sentiment "This is terrible and awful");
              Api.response_confidence :=
                Api.confidence (Api.predict_sentiment "This is terrible and awful") |}.
Proof.
  split; [reflexivity|].
  destruct (predict_answers_with_the_score
              {| Api.text := "This is terrible and awful" |} []) as [H _];
    [reflexivity|].
  by rewrite H.
Defined.

(** X6: the endpoint ends in one of two ways, and which one depends on
    the text alone: a response, exactly when the text has a visible
    character, or [HTTPException(500, "Internal server error")], exactly
    when it is blank.  It never raises a 400, nor any other exception. *)
Theorem predict_raises_only_500
    (input_data : Api.TextInput) (log : list Api.log_entry) :
  ((exists response, fst (Api.predict input_data log) = inl response)
   <-> Py.blank (Api.text input_data) = false)
  /\ (fst (Api.predict input_data log)
        = inr (Api.HTTPException 500 "Internal server error")
      <-> Py.blank (Api.text input_data) = true)
  /\ (forall e, fst (Api.predict input_data log) = inr e ->
        e = Api.HTTPException 500 "Internal server error")
  /\ (forall detail,
        fst (Api.predict input_data log) <> inr (Api.HTTPException 400 detail)).
Proof.
  assert (Hcases :
    (Py.blank (Api.text input_data) = true
     /\ fst (Api.predict input_data log)
        = inr (Api.HTTPException 500 "Internal server error"))
    \/ (Py.blank (Api.text input_data) = false
        /\ exists response, fst (Api.predict input_data log) = inl response)).
  { unfold Api.predict, Api.try_except_Exception, Api.bind.
    rewrite not_strip_iff.
    destruct (Py.blank (Api.text input_data)); simpl; [left|right]; eauto. }
  destruct Hcases as [[Hb Hr]|[Hb [response Hr]]]; rewrite Hr, Hb.
  - split; [split; [intros [? [=]]|discriminate]|].
    split; [done|]. split; [by intros e [= <-]|]. by intros detail [=].
  - split; [split; [done|by exists response]|].
    split; [split; discriminate|]. split; [discriminate|done].
Qed.

(** ** The serving model: markers, batches, dictionary instances *)

Section ServingFacts.

Lemma rule_confidence_at_least_half (pc nc : Z) :
  (0.5 <= Py.round2 (snd (decide_sentiment pc nc)))%Q.
Proof.
  unfold decide_sentiment.
  destruct (pc >? nc) eqn:E1; [|destruct (nc >? pc) eqn:E2]; simpl snd.
  - apply Z.gtb_gt in E1.
    destruct (rounded_confidence_bounds (pc - nc)) as [Hlo _]; [lia|].
    eapply Qle_trans; [|exact Hlo]. discriminate.
  - apply Z.gtb_gt in E2.
    destruct (rounded_confidence_bounds (nc - pc)) as [Hlo _]; [lia|].
    eapply Qle_trans; [|exact Hlo]. discriminate.
  - rewrite rounded_neutral. discriminate.
Qed.

Lemma analyze_nonblank_confidence (self : Serving.SentimentModel) (text : string) :
  Py.blank text = false ->
  (0.5 <= Serving.confidence (Serving._analyze_sentiment self text))%Q
  /\ Serving.error (Serving._analyze_sentiment self text) = None.
Proof.
  intros Hb. rewrite analyze_sentiment_rule, blank_test_iff, Hb.
  pose proof (rule_confidence_at_least_half
                (count_hits (Serving.positive_words self) (Py.lower text))
                (count_hits (Serving.negative_words self) (Py.lower text))) as H.
  destruct (decide_sentiment _ _) as [s c]. by split.
Qed.

Lemma lookup_instances (payload : gmap string (list Serving.instance))
    (instances : list Serving.instance) :
  default [] (<["instances" := instances]> payload !! "instances") = instances.
Proof. by rewrite lookup_insert_eq. Qed.

End ServingFacts.

(** X7: the result of the serving scorer always carries the text it was
    given; it carries the marker "Empty text provided" exactly when the
    text is blank, and no "error" entry otherwise; and its confidence is
    0.0 exactly when the text is blank, being at least 0.5 otherwise. *)
Theorem analyze_marks_exactly_blank_text
    (self : Serving.SentimentModel) (text : string) :
  let r := Serving._analyze_sentiment self text in
  Serving.text r = Serving.VStr text
  /\ (Serving.error r = Some "Empty text provided" <-> Py.blank text = true)
  /\ (Serving.error r = None <-> Py.blank text = false)
  /\ ((Serving.confidence r == 0)%Q <-> Py.blank text = true)
  /\ (Py.blank text = false -> (0.5 <= Serving.confidence r)%Q).
Proof.
  intros r. subst r. destruct (Py.blank text) eqn:Hb.
  - rewrite (analyze_blank self text Hb). simpl.
    repeat split; try done.
  - destruct (analyze_nonblank_confidence self text Hb) as [Hc He].
    rewrite He. split.
    { rewrite analyze_sentiment_rule, blank_test_iff, Hb.
      by destruct (decide_sentiment _ _). }
    split; [split; discriminate|]. split; [done|]. split; [|done].
    split; [|discriminate].
    intros H0. rewrite H0 in Hc. revert Hc. unfold Qle. simpl. lia.
Qed.

(** X8: a batch is scored instance by instance: the predictions for two
    lists of instances put one after the other are the predictions for the
    first followed by those for the second, whatever else the payload
    holds besides "instances"; and the joined batch raises exactly when one
    of the two does, with the exception of the first that does. *)
Theorem predict_of_joined_batches
    (self : Serving.SentimentModel) (payload payload' : gmap string (list Serving.instance))
    (first second : list Serving.instance) :
  Serving.predict self (<["instances" := first ++ second]> payload)
  = match Serving.predict self (<["instances" := first]> payload'),
          Serving.predict self (<["instances" := second]> payload') with
    | inl r1, inl r2 =>
        inl {| Serving.predictions :=
                 Serving.predictions r1 ++ Serving.predictions r2 |}
    | inr e, _ => inr e
    | inl _, inr e => inr e
    end.
Proof.
  rewrite !predict_score_all, !lookup_instances, score_all_app.
  destruct (score_all self first); [|reflexivity].
  by destruct (score_all self second).
Qed.

(** X9: in a dictionary instance the entry "text" wins over "data": an
    instance with "text" set to [t] is scored as the plain string [t],
    whatever the other entries hold, also when [t] is empty and "data"
    holds a text; "data" is read only when there is no "text". *)
Theorem dict_instance_text_before_data
    (self : Serving.SentimentModel) (d : gmap string Serving.value) (t : string) :
  Serving.predict self
    {["instances" := [Serving.InstDict (<["text" := Serving.VStr t]> d)]]}
    = Serving.predict self {["instances" := [Serving.InstStr t]]}
  /\ (d !! "text" = None ->
      Serving.predict self
        {["instances" := [Serving.InstDict (<["data" := Serving.VStr t]> d)]]}
        = Serving.predict self {["instances" := [Serving.InstStr t]]})
  /\ Serving.predict self
       {["instances" :=
           [Serving.InstDict
              (<["text" := Serving.VStr ""]> (<["data" := Serving.VStr t]> d))]]}
     = inl {| Serving.predictions := [empty_text_result (Serving.VStr "")] |}.
Proof.
  assert (Hone : forall inst,
            Serving.predict self {["instances" := [inst]]}
            = match Serving._analyze_sentiment_any self (Serving.instance_text inst) with
              | inl result => inl {| Serving.predictions := [result] |}
              | inr e => inr e
              end).
  { intros inst. unfold Serving.predict. rewrite lookup_singleton_eq. simpl.
    by destruct (Serving._analyze_sentiment_any self (Serving.instance_text inst)). }
  rewrite !Hone. unfold Serving.instance_text.
  split; [|split].
  - by rewrite (lookup_insert_eq d "text" (Serving.VStr t)).
  - intros Ht. rewrite (lookup_insert_ne d "data" "text" (Serving.VStr t)) by done.
    by rewrite Ht, (lookup_insert_eq d "data" (Serving.VStr t)).
  - rewrite (lookup_insert_eq _ "text" (Serving.VStr "")). reflexivity.
Qed.

(** ** The trainer: what the derived lexicon depends on and holds *)

Section TrainerFacts.

Lemma elem_of_labelled_words (w label : string) (data : list (string * string)) :
  w ∈ labelled_words label data
  <-> exists text, (text, label) ∈ data /\ w ∈ Py.split (Py.lower text).
Proof.
  induction data as [|[text l] rest IH]; simpl.
  - split; [set_solver|]. intros (text & H & _). by apply elem_of_nil in H.
  - rewrite elem_of_union, IH. split.
    + intros [H|(text' & Hin & Hw)].
      * destruct (String.eqb l label) eqn:E; [|set_solver].
        apply String.eqb_eq in E as ->. exists text. split; [left|].
        by apply elem_of_list_to_set in H.
      * exists text'. split; [by right|done].
    + intros (text' & Hin & Hw). apply elem_of_cons in Hin as [[= -> ->]|Hin].
      * left. rewrite String.eqb_refl. by apply elem_of_list_to_set.
      * right. by exists text'.
Qed.

Lemma labelled_words_ext (label : string) (d1 d2 : list (string * string)) :
  (forall text, (text, label) ∈ d1 <-> (text, label) ∈ d2) ->
  labelled_words label d1 = labelled_words label d2.
Proof.
  intros H. apply set_eq. intros w. rewrite !elem_of_labelled_words.
  split; intros (text & Hin & Hw); exists text; (split; [by apply H|done]).
Qed.

Lemma extract_features_words (data : list (string * string)) :
  Training.extract_features data =
  {| Training.positive_words :=
       labelled_words "positive" data ∖
         (labelled_words "positive" data ∩ labelled_words "negative" data);
     Training.negative_words :=
       labelled_words "negative" data ∖
         (labelled_words "positive" data ∩ labelled_words "negative" data);
     Training.common_words :=
       labelled_words "positive" data ∩ labelled_words "negative" data |}.
Proof.
  unfold Training.extract_features. rewrite extract_loop.
  by rewrite !(left_id_L ∅ (∪)).
Qed.

(** The words [split] hands out: never empty, and made of the characters
    of the text that are not whitespace. *)
Lemma flush_words (P : ascii -> Prop) (acc : list ascii) (w : string) :
  Forall P acc -> w ∈ Py.flush acc ->
  w <> "" /\ Forall P (list_ascii_of_string w).
Proof.
  intros HP Hw. destruct acc as [|a acc]; simpl in Hw; [by apply elem_of_nil in Hw|].
  apply list_elem_of_singleton in Hw as ->. split.
  - simpl. destruct (rev acc); simpl; discriminate.
  - rewrite list_ascii_of_string_of_list_ascii. by apply (Forall_rev (l := a :: acc)).
Qed.

Lemma split_from_words (P : ascii -> Prop) (s : string) (acc : list ascii) (w : string) :
  (forall c, c ∈ list_ascii_of_string s -> Py.isspace c = false -> P c) ->
  Forall P acc -> w ∈ Py.split_from acc s ->
  w <> "" /\ Forall P (list_ascii_of_string w).
Proof.
  revert acc. induction s as [|c s IH]; intros acc Hs HP Hw; simpl in Hw.
  - by apply (flush_words P acc).
  - assert (Hs' : forall c', c' ∈ list_ascii_of_string s ->
                    Py.isspace c' = false -> P c').
    { intros c' Hc'. apply Hs. simpl. by right. }
    destruct (Py.isspace c) eqn:Hc.
    + apply elem_of_app in Hw as [Hw|Hw].
      * by apply (flush_words P acc).
      * by apply (IH []).
    + apply (IH (c :: acc)); [done| |done].
      constructor; [|done]. apply Hs; [simpl; by left|done].
Qed.

Lemma lower_chars (s : string) :
  list_ascii_of_string (Py.lower s) = map Py.lower_char (list_ascii_of_string s).
Proof. induction s as [|c s IH]; simpl; congruence. Qed.

Lemma lowercase_chars (w : string) :
  Forall (fun c => Py.lower_char c = c) (list_ascii_of_string w) -> Py.lower w = w.
Proof.
  induction w as [|c w IH]; simpl; [done|].
  intros H. apply Forall_cons in H as [Hc Hw]. by rewrite Hc, IH.
Qed.

Lemma split_lower_words (text w : string) :
  w ∈ Py.split (Py.lower text) ->
  w <> ""
  /\ Forall (fun c => Py.isspace c = false) (list_ascii_of_string w)
  /\ Py.lower w = w.
Proof.
  intros Hw. unfold Py.split in Hw. split; [|split].
  - by apply (split_from_words (fun _ => True) (Py.lower text) [] w).
  - by apply (split_from_words (fun c => Py.isspace c = false) (Py.lower text) [] w).
  - apply lowercase_chars.
    apply (split_from_words (fun c => Py.lower_char c = c) (Py.lower text) [] w);
      [|done|done].
    intros c Hc _. rewrite lower_chars in Hc.
    apply list_elem_of_fmap in Hc as (c' & -> & _). apply lower_char_idempotent.
Qed.

End TrainerFacts.

(** X10: [extract_features] reads a corpus only through its positive and
    negative pairs: two corpora in which the same texts are labelled
    "positive" and the same texts "negative" give the same three word
    sets, whatever the order of the examples, their repetitions, and the
    examples with any other label. *)
Theorem extract_features_reads_labelled_pairs (d1 d2 : list (string * string)) :
  (forall text label,
      label = "positive" \/ label = "negative" ->
      ((text, label) ∈ d1 <-> (text, label) ∈ d2)) ->
  Training.extract_features d1 = Training.extract_features d2.
Proof.
  intros H. rewrite !extract_features_words.
  rewrite (labelled_words_ext "positive" d1 d2) by (intros; apply H; by left).
  by rewrite (labelled_words_ext "negative" d1 d2) by (intros; apply H; by right).
Qed.

Lemma extract_features_reads_labelled_pairs_witness :
  Training.extract_features
    [("It's okay I guess", "neutral"); ("I hate this", "negative");
     ("I love this", "positive"); ("I hate this", "negative")]
  = Training.extract_features
      [("I love this", "positive"); ("I hate this", "negative")].
Proof.
  apply extract_features_reads_labelled_pairs.
  intros text label Hl. rewrite !elem_of_cons, !elem_of_nil.
  destruct Hl as [-> | ->]; naive_solver.
Defined.

(** X11: every word [extract_features] returns, in any of its three
    sets, is a non-empty string without whitespace that is its own
    lowercase form; in particular the empty string, which is found in
    every text, is never an entry of a derived lexicon. *)
Theorem extract_features_words_are_visible
    (data : list (string * string)) (w : string) :
  let features := Training.extract_features data in
  w ∈ Training.positive_words features ∪ Training.negative_words features
      ∪ Training.common_words features ->
  visible w /\ Py.lower w = w /\ Py.blank w = false.
Proof.
  intros features Hw. subst features. rewrite extract_features_words in Hw. simpl in Hw.
  assert (Hl : exists label, w ∈ labelled_words label data) by set_solver.
  destruct Hl as (label & Hl). apply elem_of_labelled_words in Hl as (text & _ & Hs).
  destruct (split_lower_words text w Hs) as (Hne & Hsp & Hlow).
  split; [by split|]. split; [done|].
  destruct w as [|c w]; [done|]. simpl in *.
  apply Forall_cons in Hsp as [Hc _]. by rewrite Hc.
Qed.

Lemma extract_features_words_are_visible_witness :
  visible "love" /\ Py.lower "love" = "love" /\ Py.blank "love" = false.
Proof.
  apply (extract_features_words_are_visible
           [("I love this", "positive"); ("I hate this", "negative")] "love").
  by vm_compute.
Defined.

(** X12: a corpus without a positive and without a negative example
    trains to two empty word lists and a feature count of zero; the
    trained model then calls every text "neutral" and gets none of the
    validation cases right. *)
Theorem training_without_labelled_examples
    (data : list (string * string)) (trained_at training_time validation_time : string) :
  (forall text label,
      (text, label) ∈ data -> label <> "positive" /\ label <> "negative") ->
  let trained := fst (Training.train_model_from data trained_at training_time) in
  Training.model_data (Training.trainer trained)
    = Some {| Training.model_positive_words := [];
              Training.model_negative_words := [] |}
  /\ Training.feature_count (Training.training_stats trained) = 0
  /\ (forall text, Training._predict_single (Training.trainer trained) text = "neutral")
  /\ exists results,
       fst (Training.validate_model (Training.trainer trained) validation_time)
         = inl results
       /\ Training.correct_predictions results = 0
       /\ (Training.accuracy results == 0)%Q.
Proof.
  intros Hdata trained.
  assert (Hempty : forall label, label = "positive" \/ label = "negative" ->
                     labelled_words label data = ∅).
  { intros label Hl. rewrite (labelled_words_ext label data []); [reflexivity|].
    intros text. split; [|by intros ?%elem_of_nil].
    intros Hin. destruct (Hdata text label Hin). destruct Hl; congruence. }
  assert (Hf : Training.extract_features data
               = {| Training.positive_words := ∅; Training.negative_words := ∅;
                    Training.common_words := ∅ |}).
  { rewrite extract_features_words.
    rewrite (Hempty "positive") by (by left).
    rewrite (Hempty "negative") by (by right). f_equal; set_solver. }
  subst trained. unfold Training.train_model_from. rewrite Hf. simpl.
  rewrite elements_empty. simpl.
  split; [reflexivity|]. split; [reflexivity|]. split; [reflexivity|].
  eexists. split; [reflexivity|]. split; reflexivity.
Qed.

Lemma training_without_labelled_examples_witness :
  Training._predict_single
    (Training.trainer
       (fst (Training.train_model_from
               [("It's okay I guess", "neutral"); ("This is average", "neutral")]
               "2025-01-01T00:00:00" "2025-01-01T00:00:01")))
    "I love this"
  = "neutral".
Proof.
  destruct (training_without_labelled_examples
              [("It's okay I guess", "neutral"); ("This is average", "neutral")]
              "2025-01-01T00:00:00" "2025-01-01T00:00:01" "2025-01-01T00:00:02")
    as (_ & _ & H & _).
  - intros text label Hin. rewrite !elem_of_cons, elem_of_nil in Hin.
    destruct Hin as [[= _ ->]|[[= _ ->]|[]]]; split; discriminate.
  - apply H.
Defined.

(** ** The trainer: validation and statistics *)

Section ValidationFacts.

Lemma correct_loop_bounds (self : Training.SimpleModelTrainer)
    (cases : list (string * string)) (start : Z) :
  start
  <= fold_left
       (fun correct '(text, expected) =>
          if String.eqb (Training._predict_single self text) expected
          then correct + 1 else correct)
       cases start
  <= start + Z.of_nat (length cases).
Proof.
  revert start. induction cases as [|[text expected] rest IH]; intros start.
  - simpl. lia.
  - cbn [fold_left length].
    destruct (String.eqb (Training._predict_single self text) expected).
    + specialize (IH (start + 1)). lia.
    + specialize (IH start). lia.
Qed.

Lemma count_correct_ext (s1 s2 : Training.SimpleModelTrainer)
    (cases : list (string * string)) :
  (forall text, Training._predict_single s1 text = Training._predict_single s2 text) ->
  Training.count_correct s1 cases = Training.count_correct s2 cases.
Proof.
  intros H. unfold Training.count_correct. generalize 0.
  induction cases as [|[text expected] rest IH]; intros start; [reflexivity|].
  cbn [fold_left]. rewrite H. apply IH.
Qed.

Lemma count_labels_sum (data : list (string * string)) :
  Training.count_label "positive" data + Training.count_label "negative" data
    + Training.count_label "neutral" data <= Z.of_nat (length data)
  /\ ((forall text label, (text, label) ∈ data ->
         label = "positive" \/ label = "negative" \/ label = "neutral") ->
      Training.count_label "positive" data + Training.count_label "negative" data
        + Training.count_label "neutral" data = Z.of_nat (length data)).
Proof.
  unfold Training.count_label.
  induction data as [|[text label] rest [IHle IHeq]]; simpl.
  - split; [lia|]. intros _. reflexivity.
  - assert (Hcases :
      (label = "positive" \/ label = "negative" \/ label = "neutral")
      \/ (String.eqb label "positive" = false /\ String.eqb label "negative" = false
          /\ String.eqb label "neutral" = false)).
    { destruct (String.eqb label "positive") eqn:E1; [apply String.eqb_eq in E1; auto|].
      destruct (String.eqb label "negative") eqn:E2; [apply String.eqb_eq in E2; auto|].
      destruct (String.eqb label "neutral") eqn:E3; [apply String.eqb_eq in E3; auto|].
      by right. }
    split.
    + destruct Hcases as [[-> | [-> | ->]]|(E1 & E2 & E3)];
        [simpl; lia..|rewrite E1, E2, E3; lia].
    + intros Hall.
      assert (Hrest : forall text' label', (text', label') ∈ rest ->
                label' = "positive" \/ label' = "negative" \/ label' = "neutral").
      { intros text' label' Hin. apply (Hall text'). by right. }
      specialize (IHeq Hrest).
      destruct (Hall text label) as [-> | [-> | ->]]; [by left|simpl; lia..].
Qed.

End ValidationFacts.

(** X13: [validate_model] raises [ValueError("Model not trained yet!")]
    on a trainer without model data, where [_predict_single] quietly
    answers "neutral"; on a trained one it returns four test cases, a
    number of correct predictions between 0 and 4, the accuracy
    correct / 4, which lies between 0 and 1, and the time it was given,
    and it logs that accuracy. *)
Theorem validate_model_outcomes
    (self : Training.SimpleModelTrainer) (validation_time : string) :
  (Training.model_data self = None ->
     Training.validate_model self validation_time
       = (inr (Training.ValueError "Model not trained yet!"), [])
     /\ forall text, Training._predict_single self text = "neutral")
  /\ (Training.model_data self <> None ->
     exists results,
       Training.validate_model self validation_time
         = (inl results, [Training.InfoValidated (Training.accuracy results)])
       /\ Training.total_test_cases results = 4
       /\ 0 <= Training.correct_predictions results <= 4
       /\ (Training.accuracy results
           == inject_Z (Training.correct_predictions results) / 4)%Q
       /\ (0 <= Training.accuracy results <= 1)%Q
       /\ Training.validation_time results = validation_time).
Proof.
  unfold Training.validate_model, Training._predict_single.
  destruct (Training.model_data self) as [m|] eqn:Hm.
  - split; [discriminate|]. intros _.
    lazymatch goal with |- exists r, (inl ?rec, _) = _ /\ _ => exists rec end.
    split; [reflexivity|].
    cbn [Training.total_test_cases Training.correct_predictions Training.accuracy
         Training.validation_time].
    pose proof (correct_loop_bounds self Training.test_cases 0) as Hb.
    fold (Training.count_correct self Training.test_cases) in Hb.
    change (Z.of_nat (length Training.test_cases)) with 4 in *.
    split; [reflexivity|]. split; [lia|]. split; [reflexivity|].
    split; [|reflexivity].
    revert Hb. generalize (Training.count_correct self Training.test_cases).
    intros c Hc. unfold Qle, Qdiv, Qmult, Qinv, inject_Z. simpl. lia.
  - split; [|done]. intros _. split; reflexivity.
Qed.

(** X14: the statistics [train_model] records.  The sample total is the
    size of the corpus and equals the training size; the positive, negative
    and neutral counts add up to at most the total, and to the total when
    every label is one of the three; the feature count is the number of
    distinct words in the two derived lists.  For the sample data the
    total is 28 and the counts are 12, 12 and 4. *)
Theorem training_stats_add_up
    (data : list (string * string)) (trained_at training_time : string) :
  let trained := fst (Training.train_model_from data trained_at training_time) in
  let stats := Training.training_stats trained in
  let features := Training.extract_features data in
  Training.total_samples stats = Z.of_nat (length data)
  /\ Training.training_size (Training.model_info trained) = Training.total_samples stats
  /\ Training.positive_samples stats + Training.negative_samples stats
       + Training.neutral_samples stats <= Training.total_samples stats
  /\ ((forall text label, (text, label) ∈ data ->
         label = "positive" \/ label = "negative" \/ label = "neutral") ->
      Training.positive_samples stats + Training.negative_samples stats
        + Training.neutral_samples stats = Training.total_samples stats)
  /\ Training.feature_count stats
     = Z.of_nat (size (Training.positive_words features
                       ∪ Training.negative_words features))
  /\ (let sample := Training.training_stats
                      (fst (Training.train_model trained_at training_time)) in
      Training.total_samples sample = 28
      /\ Training.positive_samples sample = 12
      /\ Training.negative_samples sample = 12
      /\ Training.neutral_samples sample = 4
      /\ Training.positive_samples sample + Training.negative_samples sample
           + Training.neutral_samples sample = 28).
Proof.
  intros trained stats features. subst trained stats features.
  destruct (count_labels_sum data) as [Hle Heq].
  cbn [Training.train_model_from fst Training.training_stats Training.model_info
       Training.total_samples Training.training_size Training.positive_samples
       Training.negative_samples Training.neutral_samples Training.feature_count].
  split; [reflexivity|]. split; [reflexivity|]. split; [exact Hle|].
  split; [exact Heq|]. split.
  - rewrite size_union.
    + unfold size, set_size. simpl. lia.
    + rewrite extract_features_words. simpl. set_solver.
  - repeat split; reflexivity.
Qed.

(** X15: training on the sample data and validating gets three of the
    four test cases right, an accuracy of 0.75, whatever the clock says
    and in whatever order the derived words are listed: "This is great!" is
    called "neutral", because the derived negative entry "at" is found
    inside "great" and offsets the positive entry "great". *)
Theorem sample_model_validates_three_of_four
    (trained_at training_time validation_time : string) :
  let self := Training.trainer (fst (Training.train_model trained_at training_time)) in
  (exists results,
      fst (Training.validate_model self validation_time) = inl results
      /\ Training.correct_predictions results = 3
      /\ Training.total_test_cases results = 4
      /\ (Training.accuracy results == 0.75)%Q)
  /\ Training._predict_single self "This is great!" = "neutral"
  /\ "at" ∈ Training.negative_words
              (Training.extract_features Training.generate_sample_data)
  /\ Py.contains "at" (Py.lower "This is great!") = true
  /\ (forall (m m' : Training.ModelData),
        Training.model_data self = Some m ->
        Training.model_positive_words m' ≡ₚ Training.model_positive_words m ->
        Training.model_negative_words m' ≡ₚ Training.model_negative_words m ->
        Training.count_correct {| Training.model_data := Some m' |} Training.test_cases
        = 3).
Proof.
  intros self. subst self.
  split; [eexists; split; [reflexivity|]; repeat split; by vm_compute|].
  split; [by vm_compute|]. split; [by vm_compute|]. split; [reflexivity|].
  intros m m' Hm Hp Hn.
  rewrite (count_correct_ext _ {| Training.model_data := Some m |}).
  - injection Hm as <-. by vm_compute.
  - intros text. unfold Training._predict_single. simpl.
    by rewrite (count_hits_perm _ _ _ Hp), (count_hits_perm _ _ _ Hn).
Qed.

(** ** Growing the lexicon, padding the text *)

Section Monotone.

Lemma rounded_confidence_mono (d d' : Z) :
  d <= d' ->
  (Py.round2 (raw_confidence d) <= Py.round2 (raw_confidence d'))%Q.
Proof.
  intros H. rewrite !rounded_confidence.
  assert (Z.min 90 (60 + 10 * d) <= Z.min 90 (60 + 10 * d')) as Hm by lia.
  revert Hm. generalize (Z.min 90 (60 + 10 * d)) (Z.min 90 (60 + 10 * d')).
  intros k k' Hk. unfold Qle, Qdiv, Qmult, Qinv, inject_Z. simpl. lia.
Qed.

Lemma decide_sentiment_cases (pc nc : Z) :
  (pc > nc /\ decide_sentiment pc nc = ("positive", raw_confidence (pc - nc)))
  \/ (nc > pc /\ decide_sentiment pc nc = ("negative", raw_confidence (nc - pc)))
  \/ (pc = nc /\ decide_sentiment pc nc = ("neutral", 0.5%Q)).
Proof.
  destruct (Z.lt_trichotomy pc nc) as [H|[H|H]].
  - right; left. split; [lia|]. apply decide_sentiment_negative. lia.
  - right; right. split; [done|]. by apply decide_sentiment_neutral.
  - left. split; [lia|]. apply decide_sentiment_positive. lia.
Qed.

(** A visible word is found in a padded text where it is found in the
    text. *)
Lemma visible_not_blank (w : string) : visible w -> Py.blank w = false.
Proof.
  intros [Hne Hsp]. destruct w as [|c w]; [done|]. simpl in *.
  apply Forall_cons in Hsp as [Hc _]. by rewrite Hc.
Qed.

Lemma contains_leading_blank (w a t : string) :
  visible w -> Py.blank a = true ->
  Py.contains w (a +:+ t) = Py.contains w t.
Proof.
  intros Hv. induction a as [|c a IH]; intros Hb; [reflexivity|].
  simpl in Hb. apply andb_true_iff in Hb as [Hc Hb].
  rewrite app_cons, contains_unfold, (IH Hb).
  destruct Hv as [Hne Hsp]. destruct w as [|d w]; [done|]. simpl.
  apply Forall_cons in Hsp as [Hd _].
  destruct (ascii_dec d c) as [->|]; [congruence|reflexivity].
Qed.

Lemma prefix_trailing_blank (w t b : string) :
  Forall (fun c => Py.isspace c = false) (list_ascii_of_string w) ->
  Py.blank b = true ->
  String.prefix w (t +:+ b) = String.prefix w t.
Proof.
  intros Hw Hb. revert t. induction w as [|d w IH]; intros t; [by destruct t, b|].
  simpl in Hw. apply Forall_cons in Hw as [Hd Hw].
  destruct t as [|c t].
  - rewrite app_empty. destruct b as [|c b]; [reflexivity|]. simpl.
    simpl in Hb. apply andb_true_iff in Hb as [Hc _].
    destruct (ascii_dec d c) as [->|]; [congruence|reflexivity].
  - rewrite app_cons. simpl. destruct (ascii_dec d c); [by apply IH|reflexivity].
Qed.

Lemma contains_trailing_blank (w t b : string) :
  visible w -> Py.blank b = true ->
  Py.contains w (t +:+ b) = Py.contains w t.
Proof.
  intros Hv Hb. induction t as [|c t IH].
  - rewrite app_empty.
    destruct (Py.contains w b) eqn:Hc.
    + apply (contains_blank w b Hb) in Hc.
      by rewrite (visible_not_blank w Hv) in Hc.
    + destruct Hv as [Hne _]. by destruct w.
  - rewrite app_cons, (contains_unfold w (String c (t +:+ b))), IH.
    rewrite <- app_cons, (prefix_trailing_blank w (String c t) b) by (done || apply Hv).
    by rewrite <- contains_unfold.
Qed.

Lemma count_hits_padded (words : list string) (a t b : string) :
  Forall visible words -> Py.blank a = true -> Py.blank b = true ->
  count_hits words (a +:+ t +:+ b) = count_hits words t.
Proof.
  intros Hw Ha Hb. induction Hw as [|w rest Hv _ IH]; simpl; [reflexivity|].
  by rewrite IH, (contains_leading_blank w a _ Hv Ha),
             (contains_trailing_blank w t b Hv Hb).
Qed.

Lemma lower_app (a b : string) : Py.lower (a +:+ b) = Py.lower a +:+ Py.lower b.
Proof.
  induction a as [|c a IH]; [reflexivity|].
  rewrite app_cons. simpl. by rewrite IH, app_cons.
Qed.

End Monotone.

(** X16: adding an entry to the positive word list never moves a result
    away from "positive": a text scored "positive" stays "positive" with
    at least the same confidence, a text scored "negative" with the longer
    list was scored "negative" with the shorter one with at least that
    confidence, and nothing changes when the new entry is not found. *)
Theorem adding_a_positive_entry_is_monotone
    (positive_words negative_words : list string) (word text : string) :
  let r := Api.predict_sentiment_with positive_words negative_words text in
  let r' := Api.predict_sentiment_with (word :: positive_words) negative_words text in
  (Api.sentiment r = "positive" ->
     Api.sentiment r' = "positive" /\ (Api.confidence r <= Api.confidence r')%Q)
  /\ (Api.sentiment r' = "negative" ->
     Api.sentiment r = "negative" /\ (Api.confidence r' <= Api.confidence r)%Q)
  /\ (Py.contains word (Py.lower text) = false -> r' = r).
Proof.
  intros r r'. subst r r'. rewrite !predict_sentiment_with_rule.
  cbn [count_hits].
  set (pc := count_hits positive_words (Py.lower text)).
  set (nc := count_hits negative_words (Py.lower text)).
  destruct (Py.contains word (Py.lower text)).
  2: { rewrite Z.add_0_l. destruct (decide_sentiment pc nc) as [s c]. simpl.
       repeat split; auto; apply Qle_refl. }
  destruct (decide_sentiment_cases pc nc) as [[H E]|[[H E]|[H E]]];
    destruct (decide_sentiment_cases (1 + pc) nc) as [[H' E']|[[H' E']|[H' E']]];
    rewrite E, E'; simpl; try lia;
    (split; [|split]); try discriminate; intros _;
    (split; [reflexivity|]); apply rounded_confidence_mono; lia.
Qed.

(** X17: the scorers do not strip the text, and need not: for word lists
    whose entries are non-empty and free of whitespace (the default lists,
    every derived list), whitespace before and after a text changes
    neither count nor the result. *)
Theorem surrounding_whitespace_is_harmless
    (positive_words negative_words : list string) (before text after : string) :
  Forall visible positive_words -> Forall visible negative_words ->
  Py.blank before = true -> Py.blank after = true ->
  Api.predict_sentiment_with positive_words negative_words (before +:+ text +:+ after)
    = Api.predict_sentiment_with positive_words negative_words text.
Proof.
  intros Hp Hn Hb Ha. rewrite !predict_sentiment_with_rule, !lower_app.
  by rewrite !count_hits_padded by (done || by rewrite blank_lower).
Qed.

Lemma surrounding_whitespace_is_harmless_witness :
  Api.predict_sentiment_with
    (positive default_lexicon) (negative default_lexicon) ("  " +:+ "I love it" +:+ " ")
  = Api.predict_sentiment_with
      (positive default_lexicon) (negative default_lexicon) "I love it".
Proof.
  apply (surrounding_whitespace_is_harmless
           (positive default_lexicon) (negative default_lexicon) "  " "I love it" " ").
  - repeat (constructor; [split; [discriminate|repeat constructor]|]). constructor.
  - repeat (constructor; [split; [discriminate|repeat constructor]|]). constructor.
  - reflexivity.
  - reflexivity.
Defined.
